(** * The shopping cart of sleep-outside: normalizer, totalizer, controller

    A shallow embedding of [cart.js] (the cart page script) and of the
    storage helpers of [utils.mjs] it calls, with the properties the
    specification states about them.

    Modelling choices, all local to this file:
    - a JavaScript number is an exact rational ([Qc]) or [NaN]; rounding of
      IEEE doubles, the infinities and the sign of zero are not represented.
      The code's doubles and these numbers agree on whole numbers of
      magnitude at most 2^53; a property that depends on the value of a
      sum, a product or a parsed number is stated within that range (module
      [Exact]), a property that compares two runs of the code is not;
    - a string is a [string] whose characters are code units below 256;
    - a cart line item is a record; its [Id] is a string, as the data model
      of the cart has it; [Quantity] and [FinalPrice] are JSON scalars or
      missing;
    - the content of [localStorage] under the key ["so-cart"] is represented
      by what [JSON.parse] makes of it; an array is an array of line items
      (an array with an element that is not an object is not represented);
    - functions that read or write the page are computations in a small
      state-and-exception monad over the page. *)

From Stdlib Require Import List String Ascii Bool ZArith QArith Qcanon Lia Permutation.
Import ListNotations.

Local Open Scope string_scope.
Local Open Scope Z_scope.

(** ** Numbers *)

Module Num.

(** A JavaScript number: a finite value or [NaN]. *)
Inductive number : Type :=
| Fin (q : Qc)
| NaN.

(** The integer [z] as a number value. *)
Definition Z2Qc (z : Z) : Qc := Q2Qc (inject_Z z).

Definition is_zero (q : Qc) : bool := Qnum (this q) =? 0.

(** [a + b] on numbers. *)
Definition add (a b : number) : number :=
  match a, b with
  | Fin x, Fin y => Fin (x + y)%Qc
  | _, _ => NaN
  end.

(** [a * b] on numbers. *)
Definition mul (a b : number) : number :=
  match a, b with
  | Fin x, Fin y => Fin (x * y)%Qc
  | _, _ => NaN
  end.

(** [n || 1]: zero and [NaN] are falsy, every other number is kept. *)
Definition or_one (n : number) : Qc :=
  match n with
  | Fin q => if is_zero q then Z2Qc 1 else q
  | NaN => Z2Qc 1
  end.

(** [Math.max(a, b)] on finite numbers. *)
Definition Math_max (a b : Qc) : Qc :=
  match (a ?= b)%Qc with
  | Lt => b
  | _ => a
  end.

(** [n === 0]. *)
Definition is_strictly_zero (n : number) : bool :=
  match n with
  | Fin q => is_zero q
  | NaN => false
  end.

End Num.
Export Num.

(** ** Strings to numbers *)

Module Conv.

(** White space and line terminators, among the code units below 256. *)
Definition is_white_space (c : ascii) : bool :=
  let n := nat_of_ascii c in
  existsb (Nat.eqb n) [9; 10; 11; 12; 13; 32; 160]%nat.

(** The value of [c] as a digit of the given base, if it is one. *)
Definition digit_of (base : Z) (c : ascii) : option Z :=
  let n := Z.of_nat (nat_of_ascii c) in
  let v :=
    if (48 <=? n) && (n <=? 57) then Some (n - 48)
    else if (97 <=? n) && (n <=? 122) then Some (n - 87)
    else if (65 <=? n) && (n <=? 90) then Some (n - 55)
    else None in
  match v with
  | Some d => if d <? base then Some d else None
  | None => None
  end.

(** The longest prefix of digits, as the list of their values, and the
    rest of the text. *)
Fixpoint span_digits (base : Z) (l : list ascii) : list Z * list ascii :=
  match l with
  | [] => ([], [])
  | c :: r =>
      match digit_of base c with
      | Some d => let (ds, rest) := span_digits base r in (d :: ds, rest)
      | None => ([], l)
      end
  end.

Definition digits_value (base : Z) (ds : list Z) : Z :=
  fold_left (fun acc d => acc * base + d) ds 0.

Fixpoint drop_white_space (l : list ascii) : list ascii :=
  match l with
  | [] => []
  | c :: r => if is_white_space c then drop_white_space r else l
  end.

Definition trim (l : list ascii) : list ascii :=
  rev (drop_white_space (rev (drop_white_space l))).

(** An optional sign: the factor it stands for, and the rest. *)
Definition take_sign (l : list ascii) : Z * list ascii :=
  match l with
  | "+"%char :: r => (1, r)
  | "-"%char :: r => (-1, r)
  | _ => (1, l)
  end.

(** [parseInt(s, 10)]: leading white space is skipped, then an optional
    sign, then the longest run of decimal digits is read; what follows is
    ignored.  [None] is [NaN] (no digit was found). *)
Definition parseInt_Z (s : string) : option Z :=
  let (sign, r) := take_sign (drop_white_space (list_ascii_of_string s)) in
  match span_digits 10 r with
  | ([], _) => None
  | (ds, _) => Some (sign * digits_value 10 ds)
  end.

Definition parseInt (s : string) : number :=
  match parseInt_Z s with
  | Some z => Fin (Z2Qc z)
  | None => NaN
  end.

(** Ten to the power [e], for any integer [e]. *)
Definition pow10 (e : Z) : Qc :=
  if 0 <=? e then Z2Qc (10 ^ e) else (/ Z2Qc (10 ^ (- e)))%Qc.

(** The exponent part of a decimal literal, [e] or [E] with a signed
    integer: the exponent and the rest; absent, the exponent is 0; [None]
    when the indicator is not followed by digits. *)
Definition take_exponent (l : list ascii) : option (Z * list ascii) :=
  match l with
  | c :: r =>
      if (c =? "e")%char || (c =? "E")%char then
        let (sign, r') := take_sign r in
        match span_digits 10 r' with
        | ([], _) => None
        | (ds, rest) => Some (sign * digits_value 10 ds, rest)
        end
      else Some (0, l)
  | [] => Some (0, [])
  end.

(** An unsigned decimal literal: digits, an optional fraction, an optional
    exponent, and nothing after them. *)
Definition unsigned_decimal (l : list ascii) : number :=
  let (ip, r1) := span_digits 10 l in
  let (fp, r2) :=
    match r1 with
    | "."%char :: r => span_digits 10 r
    | _ => ([], r1)
    end in
  let well_formed :=
    match ip, fp with
    | [], [] => false
    | _, _ => true
    end in
  if well_formed then
    match take_exponent r2 with
    | Some (e, []) =>
        Fin (Z2Qc (digits_value 10 (ip ++ fp)%list)
             * pow10 (e - Z.of_nat (List.length fp)))%Qc
    | _ => NaN
    end
  else NaN.

(** A literal in base 2, 8 or 16 after its prefix: digits only. *)
Definition radix_literal (base : Z) (l : list ascii) : number :=
  match span_digits base l with
  | ([], _) => NaN
  | (ds, []) => Fin (Z2Qc (digits_value base ds))
  | (_, _ :: _) => NaN
  end.

(** The number a string converts to ([Number(s)] on a string).  White
    space around the literal is dropped; the empty text is 0; a literal is
    a signed decimal or an unsigned binary, octal or hexadecimal integer;
    anything else is [NaN].  The literal [Infinity] denotes a value this
    model has no number for and is not recognised. *)
Definition StringToNumber (s : string) : number :=
  match trim (list_ascii_of_string s) with
  | [] => Fin (Z2Qc 0)
  | "0"%char :: c :: r =>
      if (c =? "x")%char || (c =? "X")%char then radix_literal 16 r
      else if (c =? "o")%char || (c =? "O")%char then radix_literal 8 r
      else if (c =? "b")%char || (c =? "B")%char then radix_literal 2 r
      else unsigned_decimal ("0"%char :: c :: r)
  | l =>
      let (sign, r) := take_sign l in
      mul (Fin (Z2Qc sign)) (unsigned_decimal r)
  end.

End Conv.
Export Conv.

(** ** Values and cart line items *)

Module Item.

(** A JSON scalar held by a property, or the absence of the property. *)
Inductive jsval : Type :=
| JUndefined
| JNull
| JBool (b : bool)
| JNum (q : Qc)
| JStr (s : string).

(** [Number(v)]. *)
Definition ToNumber (v : jsval) : number :=
  match v with
  | JUndefined => NaN
  | JNull => Fin (Z2Qc 0)
  | JBool true => Fin (Z2Qc 1)
  | JBool false => Fin (Z2Qc 0)
  | JNum q => Fin q
  | JStr s => StringToNumber s
  end.

(** A cart line item.  [Props] holds the own properties the cart logic
    never reads (Name, Images, Colors, ...), each with its JSON text. *)
Record CartLineItem : Type := mkItem {
  Id : string;
  FinalPrice : jsval;
  Quantity : jsval;
  Props : list (string * string)
}.

(** [{ ...item, Quantity: quantity }]. *)
Definition with_Quantity (item : CartLineItem) (quantity : Qc) : CartLineItem :=
  {| Id := Id item;
     FinalPrice := FinalPrice item;
     Quantity := JNum quantity;
     Props := Props item |}.

End Item.
Export Item.

(** ** The normalizer *)

Module Normalizer.

(** An object held by the map [byId]: the copy of the first item seen
    with its key, whose [Quantity] is a number from its creation on and
    is only ever updated by [+=] with a number. *)
Record entry : Type := mkEntry {
  first_seen : CartLineItem;
  total : Qc
}.

(** The object an entry stands for. *)
Definition entry_object (e : entry) : CartLineItem :=
  with_Quantity (first_seen e) (total e).

(** A [Map] keyed by item id: its entries in insertion order. *)
Definition Map : Type := list (string * entry).

(** [byId.get(key)]. *)
Fixpoint Map_get (key : string) (byId : Map) : option entry :=
  match byId with
  | [] => None
  | (k, e) :: rest => if (k =? key)%string then Some e else Map_get key rest
  end.

(** [existing.Quantity += quantity], where [existing] is the entry under
    [key]: the entry is updated in its place. *)
Fixpoint add_Quantity (key : string) (quantity : Qc) (byId : Map) : Map :=
  match byId with
  | [] => []
  | (k, e) :: rest =>
      if (k =? key)%string
      then (k, {| first_seen := first_seen e; total := (total e + quantity)%Qc |}) :: rest
      else (k, e) :: add_Quantity key quantity rest
  end.

(** The body of the [forEach] callback. *)
Definition visit (byId : Map) (item : CartLineItem) : Map :=
  let quantity := or_one (ToNumber (Quantity item)) in
  match Map_get (Id item) byId with
  | Some _ => add_Quantity (Id item) quantity byId
  | None => (byId ++ [(Id item, {| first_seen := item; total := quantity |})])%list
  end.

(** [combineDuplicateItems(items)]. *)
Definition combineDuplicateItems (items : list CartLineItem) : list CartLineItem :=
  let byId := fold_left visit items [] in
  map (fun kv => entry_object (snd kv)) byId.

End Normalizer.
Export Normalizer.

(** ** The page: persistent storage and the elements the cart script touches *)

Module Page.

(** What [JSON.parse] returns on the text stored under ["so-cart"]: a
    scalar, an object that is not an array, or an array of line items. *)
Inductive parsed : Type :=
| PNull
| PBool (b : bool)
| PNum (q : Qc)
| PStr (s : string)
| PObject
| PArray (items : list CartLineItem).

(** The content of [localStorage] under ["so-cart"]: no such key, a text
    that [JSON.parse] rejects, or a text that parses to a value. *)
Inductive persisted : Type :=
| NoKey
| Unparseable
| Text (v : parsed).

Record page : Type := mkPage {
  storage : persisted;
  (** every value passed to [setLocalStorage] so far, oldest first *)
  writes : list (list CartLineItem);
  (** the items whose cards fill the [.product-list] element: the card of
      an item is what [cartItemTemplate] makes of it *)
  product_list : list CartLineItem;
  (** the number shown (to two decimals) in the [.cart-total] element *)
  cart_total : number;
  (** whether the [.cart-footer] element has the class [hide] *)
  cart_footer_hide : bool;
  (** whether the header, with the count badge, is in the document *)
  has_badge : bool;
  (** whether the [.cart-count-badge] element has the class [hide] *)
  badge_hide : bool;
  (** the number shown in the [.cart-count] element *)
  cart_count : Qc
}.

Inductive error : Type :=
| SyntaxError
| TypeError.

(** The result of running a function on a page: it returns a value or
    throws, and leaves a page behind either way. *)
Inductive outcome (A : Type) : Type :=
| Return (a : A) (p : page)
| Throw (e : error) (p : page).
Arguments Return {A} a p.
Arguments Throw {A} e p.

Definition M (A : Type) : Type := page -> outcome A.

Definition ret {A} (a : A) : M A := fun p => Return a p.

Definition throw {A} (e : error) : M A := fun p => Throw e p.

Definition bind {A B} (m : M A) (k : A -> M B) : M B :=
  fun p =>
    match m p with
    | Return a p' => k a p'
    | Throw e p' => Throw e p'
    end.

Definition modify (f : page -> page) : M unit := fun p => Return tt (f p).

End Page.
Export Page.

Notation "x <- m ;; k" := (bind m (fun x => k))
  (at level 61, m at next level, right associativity).
Notation "m ;;; k" := (bind m (fun _ => k))
  (at level 61, right associativity).

(** ** The storage helpers of utils.mjs *)

Module Utils.

(** [getLocalStorage("so-cart")]: [JSON.parse(localStorage.getItem(key))].
    A missing key reads as [null], which parses to [null]. *)
Definition getLocalStorage : M parsed :=
  fun p =>
    match storage p with
    | NoKey => Return PNull p
    | Unparseable => Throw SyntaxError p
    | Text v => Return v p
    end.

(** [setLocalStorage("so-cart", data)]: the text stored is the
    serialization of [data], which parses back to [data] (as it does for
    every number of this development; the code would write a [NaN] or an
    infinity as [null]). *)
Definition setLocalStorage (data : list CartLineItem) : M unit :=
  modify (fun p =>
    {| storage := Text (PArray data);
       writes := (writes p ++ [data])%list;
       product_list := product_list p;
       cart_total := cart_total p;
       cart_footer_hide := cart_footer_hide p;
       has_badge := has_badge p;
       badge_hide := badge_hide p;
       cart_count := cart_count p |}).

(** Truthiness of a parsed value. *)
Definition truthy (v : parsed) : bool :=
  match v with
  | PNull => false
  | PBool b => b
  | PNum q => negb (is_zero q)
  | PStr s => negb (s =? "")%string
  | PObject => true
  | PArray _ => true
  end.

(** [v || []]. *)
Definition or_empty (v : parsed) : parsed :=
  if truthy v then v else PArray [].

(** Calling an array method ([forEach], [reduce]) on a value: only an
    array has it; on anything else the call is a [TypeError]. *)
Definition array_of (v : parsed) : M (list CartLineItem) :=
  match v with
  | PArray items => ret items
  | _ => throw TypeError
  end.

(** [countCartItems()]. *)
Definition countCartItems : M unit :=
  v <- getLocalStorage ;;
  let cartItems := or_empty v in
  fun p =>
    if has_badge p then
      (items <- array_of cartItems ;;
       let totalQty :=
         fold_left (fun total item => (total + or_one (ToNumber (Quantity item)))%Qc)
                   items (Z2Qc 0) in
       modify (fun p =>
         {| storage := storage p;
            writes := writes p;
            product_list := product_list p;
            cart_total := cart_total p;
            cart_footer_hide := cart_footer_hide p;
            has_badge := has_badge p;
            badge_hide := is_zero totalQty;
            cart_count := if is_zero totalQty then cart_count p else totalQty |})) p
    else Return tt p.

End Utils.
Export Utils.

(** ** cart.js *)

Module Cart.

(** [renderCartContents()]. *)
Definition renderCartContents : M unit :=
  v <- getLocalStorage ;;
  items <- array_of (or_empty v) ;;
  let cartItems := combineDuplicateItems items in
  setLocalStorage cartItems ;;;
  modify (fun p =>
    {| storage := storage p;
       writes := writes p;
       product_list := cartItems;
       cart_total := cart_total p;
       cart_footer_hide := cart_footer_hide p;
       has_badge := has_badge p;
       badge_hide := badge_hide p;
       cart_count := cart_count p |}).

(** The callback of the [reduce] in [getCartTotal]. *)
Definition add_line (total : number) (item : CartLineItem) : number :=
  add total (mul (ToNumber (FinalPrice item))
                 (Fin (or_one (ToNumber (Quantity item))))).

(** [getCartTotal()]. *)
Definition getCartTotal : M number :=
  v <- getLocalStorage ;;
  items <- array_of (or_empty v) ;;
  let cartItems := combineDuplicateItems items in
  let finalTotal := fold_left add_line cartItems (Fin (Z2Qc 0)) in
  modify (fun p =>
    {| storage := storage p;
       writes := writes p;
       product_list := product_list p;
       cart_total := finalTotal;
       cart_footer_hide := is_strictly_zero finalTotal;
       has_badge := has_badge p;
       badge_hide := badge_hide p;
       cart_count := cart_count p |}) ;;;
  ret finalTotal.

(** [removeFromCart(itemId)]. *)
Definition removeFromCart (itemId : string) : M unit :=
  v <- getLocalStorage ;;
  items <- array_of (or_empty v) ;;
  let cartItems := combineDuplicateItems items in
  let updatedCart := filter (fun item => negb (Id item =? itemId)%string) cartItems in
  setLocalStorage updatedCart ;;;
  renderCartContents ;;;
  getCartTotal ;;;
  countCartItems.

(** The element an event is dispatched on, as far as the listeners read
    it: its classes, its [data-id] attribute and its value. *)
Record target : Type := mkTarget {
  classList : list string;
  dataset_id : string;
  value : string
}.

Definition contains (classes : list string) (c : string) : bool :=
  existsb (fun x => (x =? c)%string) classes.

(** The listener of [click] events on the document. *)
Definition on_click (t : target) : M unit :=
  if contains (classList t) "cart-card__remove"
  then removeFromCart (dataset_id t)
  else ret tt.

(** [item.Quantity = quantity] for the item [find] returned: the first
    item of the array with the given id is updated in its place. *)
Fixpoint assign_Quantity (itemId : string) (quantity : Qc)
                         (cartItems : list CartLineItem) : list CartLineItem :=
  match cartItems with
  | [] => []
  | item :: rest =>
      if (Id item =? itemId)%string
      then with_Quantity item quantity :: rest
      else item :: assign_Quantity itemId quantity rest
  end.

(** The listener of [change] events on the document. *)
Definition on_change (t : target) : M unit :=
  if contains (classList t) "cart-card__quantity-input" then
    let itemId := dataset_id t in
    let quantity := Math_max (Z2Qc 1) (or_one (parseInt (value t))) in
    v <- getLocalStorage ;;
    items <- array_of (or_empty v) ;;
    let cartItems := combineDuplicateItems items in
    match find (fun cartItem => (Id cartItem =? itemId)%string) cartItems with
    | Some _ =>
        setLocalStorage (assign_Quantity itemId quantity cartItems) ;;;
        renderCartContents ;;;
        getCartTotal ;;;
        countCartItems
    | None => ret tt
    end
  else ret tt.

(** The cart operations of the specification. *)

(** load-and-display: what the script runs when the page loads. *)
Definition load_and_display : M number :=
  renderCartContents ;;;
  getCartTotal.

(** remove(id): a click on the removal control of the line [id]. *)
Definition remove (id : string) : M unit :=
  on_click {| classList := ["cart-card__remove"]; dataset_id := id; value := "" |}.

(** set-quantity(id, rawValue): a change of the quantity input of the
    line [id] to the text [rawValue]. *)
Definition set_quantity (id rawValue : string) : M unit :=
  on_change {| classList := ["cart-card__quantity-input"];
               dataset_id := id; value := rawValue |}.

End Cart.
Export Cart.

(** * Vocabulary of the specification *)

Module Spec.

(** The quantity the normalizer reads off an item:
    [Number(item.Quantity) || 1]. *)
Definition counted (item : CartLineItem) : Qc :=
  or_one (ToNumber (Quantity item)).

(** How the specification counts an input quantity: a quantity that is
    missing, null or not coercible to a number counts as 1, any other as
    the number it coerces to. *)
Definition counted_as_stated (v : jsval) : number :=
  match v with
  | JUndefined | JNull => Fin (Z2Qc 1)
  | _ => match ToNumber v with
         | NaN => Fin (Z2Qc 1)
         | Fin q => Fin q
         end
  end.

(** The same count, with a quantity that coerces to zero counted as 1
    as well. *)
Definition counted_or_zero_as_one (v : jsval) : number :=
  match counted_as_stated v with
  | Fin q => if is_zero q then Fin (Z2Qc 1) else Fin q
  | NaN => Fin (Z2Qc 1)
  end.

(** The sum of the quantities of a sequence of items, each counted by [f]. *)
Definition sum_quantities (f : jsval -> number) (items : list CartLineItem) : number :=
  fold_right (fun item t => add (f (Quantity item)) t) (Fin (Z2Qc 0)) items.

(** The sum of the counted quantities of the items with the given id. *)
Definition group_quantity (key : string) (items : list CartLineItem) : Qc :=
  fold_right Qcplus (Z2Qc 0)
    (map counted (filter (fun item => (Id item =? key)%string) items)).

(** A quantity that is a positive integer. *)
Definition positive_integer (v : jsval) : Prop :=
  exists n : Z, 1 <= n /\ v = JNum (Z2Qc n).

(** A quantity that is invalid but neither negative nor fractional: it
    does not coerce to a number, or coerces to a natural number. *)
Definition natural_or_not_a_number (v : jsval) : Prop :=
  ToNumber v = NaN \/ exists n : Z, 0 <= n /\ ToNumber v = Fin (Z2Qc n).

(** The item with its quantity read again by the normalizer. *)
Definition renormalized (item : CartLineItem) : CartLineItem :=
  with_Quantity item (counted item).


(** The quantity set-quantity stores, in the words of the specification:
    the raw value coerced to an integer, clamped to a minimum of 1; a
    value with no integer reading snaps to 1. *)
Definition clamped_quantity (rawValue : string) : Z :=
  match parseInt_Z rawValue with
  | Some n => Z.max 1 n
  | None => 1
  end.

(** Persisted values under the cart key that are missing or malformed:
    no key, a text that does not parse, or a value that is not an array. *)
Definition missing_or_malformed (s : persisted) : Prop :=
  s = NoKey \/ s = Unparseable \/
  exists v, s = Text v /\ forall items, v <> PArray items.

(** Persisted values that read as nothing: no key, or a text that parses
    to a falsy value ([null], [false], [0], the empty string). *)
Definition reads_as_nothing (s : persisted) : Prop :=
  s = NoKey \/ exists v, s = Text v /\ truthy v = false.

(** The function returns normally. *)
Definition returns {A} (m : M A) (p : page) : Prop :=
  exists a p', m p = Return a p'.

(** The keys of a map, in insertion order. *)
Definition keys (byId : Map) : list string := map fst byId.

(** The quantity held under a key, zero when the key is absent. *)
Definition held (key : string) (byId : Map) : Qc :=
  match Map_get key byId with
  | Some e => total e
  | None => Z2Qc 0
  end.

(** The item an entry was created from, for the entry under a key. *)
Definition first_under (key : string) (byId : Map) : option CartLineItem :=
  option_map first_seen (Map_get key byId).

(** Every entry sits under the id of its item. *)
Definition well_keyed (byId : Map) : Prop :=
  Forall (fun kv => Id (first_seen (snd kv)) = fst kv) byId.

(** The sum of the quantities held by a map. *)
Definition held_sum (byId : Map) : Qc :=
  fold_right (fun kv t => (total (snd kv) + t)%Qc) (Z2Qc 0) byId.

(** The page [renderCartContents] leaves when the stored cart is [items]. *)
Definition rendered (items : list CartLineItem) (p : page) : page :=
  {| storage := Text (PArray (combineDuplicateItems items));
     writes := (writes p ++ [combineDuplicateItems items])%list;
     product_list := combineDuplicateItems items;
     cart_total := cart_total p;
     cart_footer_hide := cart_footer_hide p;
     has_badge := has_badge p;
     badge_hide := badge_hide p;
     cart_count := cart_count p |}.

(** The value [getCartTotal] computes when the stored cart is [items]. *)
Definition finalTotal (items : list CartLineItem) : number :=
  fold_left add_line (combineDuplicateItems items) (Fin (Z2Qc 0)).

(** The page [getCartTotal] leaves when the stored cart is [items]. *)
Definition totalled (items : list CartLineItem) (p : page) : page :=
  {| storage := storage p;
     writes := writes p;
     product_list := product_list p;
     cart_total := finalTotal items;
     cart_footer_hide := is_strictly_zero (finalTotal items);
     has_badge := has_badge p;
     badge_hide := badge_hide p;
     cart_count := cart_count p |}.

(** A cart line with the given id and quantity, and a price. *)
Definition line (id : string) (price quantity : Z) : CartLineItem :=
  {| Id := id; FinalPrice := JNum (Z2Qc price);
     Quantity := JNum (Z2Qc quantity); Props := [] |}.

(** A page whose storage holds [s], before the script has run. *)
Definition page_with (s : persisted) : page :=
  {| storage := s; writes := []; product_list := [];
     cart_total := Fin (Z2Qc 0); cart_footer_hide := false;
     has_badge := true; badge_hide := true; cart_count := Z2Qc 0 |}.

(** The cart a persisted value reads as, or the error reading it throws:
    [getLocalStorage("so-cart") || []], then the call of an array method. *)
Definition stored_cart (s : persisted) : error + list CartLineItem :=
  match s with
  | NoKey => inr []
  | Unparseable => inl SyntaxError
  | Text v =>
      if truthy v then
        match v with
        | PArray items => inr items
        | _ => inl TypeError
        end
      else inr []
  end.

(** The page [setLocalStorage] leaves. *)
Definition saved (data : list CartLineItem) (p : page) : page :=
  {| storage := Text (PArray data);
     writes := (writes p ++ [data])%list;
     product_list := product_list p;
     cart_total := cart_total p;
     cart_footer_hide := cart_footer_hide p;
     has_badge := has_badge p;
     badge_hide := badge_hide p;
     cart_count := cart_count p |}.

(** The quantity [countCartItems] shows when the stored cart is [items]. *)
Definition totalQty (items : list CartLineItem) : Qc :=
  fold_left (fun total item => (total + counted item)%Qc) items (Z2Qc 0).

(** The page [countCartItems] leaves when the stored cart is [items]. *)
Definition badged (items : list CartLineItem) (p : page) : page :=
  if has_badge p then
    {| storage := storage p;
       writes := writes p;
       product_list := product_list p;
       cart_total := cart_total p;
       cart_footer_hide := cart_footer_hide p;
       has_badge := has_badge p;
       badge_hide := is_zero (totalQty items);
       cart_count := if is_zero (totalQty items) then cart_count p else totalQty items |}
  else p.

(** The page left by a write of [data] followed by the reload of the cart,
    the total and the badge. *)
Definition refreshed (data : list CartLineItem) (p : page) : page :=
  badged (combineDuplicateItems data)
    (totalled (combineDuplicateItems data) (rendered data (saved data p))).

End Spec.
Export Spec.

(** ** ProductDetails.mjs: adding the product of the detail page to the cart *)

Module ProductDetails.

(** [existingItem.Quantity = (Number(existingItem.Quantity) || 1) + quantity]
    for the item [find] returned: the first item of the array with the
    given id is updated in its place. *)
Fixpoint increase_Quantity (id : string) (quantity : Qc)
                           (cartItems : list CartLineItem) : list CartLineItem :=
  match cartItems with
  | [] => []
  | item :: rest =>
      if (Id item =? id)%string
      then with_Quantity item (or_one (ToNumber (Quantity item)) + quantity)%Qc :: rest
      else item :: increase_Quantity id quantity rest
  end.

(** [addProductToCart()], for the product [this.product] of the page.
    [quantityInput] is the value of the element with id [productQuantity],
    or [None] when the page has no such element: [quantityInput?.value] is
    then [undefined], which [parseInt] reads as the text ["undefined"]. *)
Definition addProductToCart (product : CartLineItem)
                            (quantityInput : option string) : M unit :=
  v <- getLocalStorage ;;
  let cartItems := or_empty v in
  let quantity :=
    Math_max (Z2Qc 1)
      (or_one (parseInt (match quantityInput with
                         | Some value => value
                         | None => "undefined"
                         end))) in
  items <- array_of cartItems ;;
  let cartItems' :=
    match find (fun item => (Id item =? Id product)%string) items with
    | Some _ => increase_Quantity (Id product) quantity items
    | None => (items ++ [with_Quantity product quantity])%list
    end in
  setLocalStorage cartItems' ;;;
  countCartItems.

End ProductDetails.
Export ProductDetails.

(** ** The other ProductDetails module of the repository, which pushes the
    product as it is *)

Module PlainProductDetails.

(** [addProductToCart()]: [cartItems.push(this.product)]. *)
Definition addProductToCart (product : CartLineItem) : M unit :=
  v <- getLocalStorage ;;
  items <- array_of (or_empty v) ;;
  setLocalStorage (items ++ [product])%list.

End PlainProductDetails.

(** ** Vocabulary of the further properties *)

Module More.

(** A list of ids with one more id noted, unless it is there already. *)
Definition add_key (ids : list string) (id : string) : list string :=
  if in_dec string_dec id ids then ids else (ids ++ [id])%list.

(** The distinct ids of a list, in the order of their first occurrence. *)
Fixpoint first_occurrences (ids : list string) : list string :=
  match ids with
  | [] => []
  | id :: rest => id :: List.remove string_dec id (first_occurrences rest)
  end.

(** The items with another id than the given one. *)
Definition without (id : string) (items : list CartLineItem) : list CartLineItem :=
  filter (fun item => negb (Id item =? id)%string) items.

(** What a line contributes to the total: its price times its counted
    quantity. *)
Definition amount (item : CartLineItem) : number :=
  mul (ToNumber (FinalPrice item)) (Fin (counted item)).

(** A cart as the data model wants it: distinct ids, and every quantity a
    positive integer. *)
Definition valid_cart (items : list CartLineItem) : Prop :=
  NoDup (map Id items)
  /\ Forall (fun item => positive_integer (Quantity item)) items.

(** The quantity [addProductToCart] reads from the quantity input. *)
Definition input_quantity (quantityInput : option string) : Z :=
  clamped_quantity (match quantityInput with
                    | Some value => value
                    | None => "undefined"
                    end).

(** The cart [addProductToCart] writes when the stored cart is [items]. *)
Definition added (product : CartLineItem) (quantityInput : option string)
                 (items : list CartLineItem) : list CartLineItem :=
  match find (fun item => (Id item =? Id product)%string) items with
  | Some _ =>
      increase_Quantity (Id product) (Z2Qc (input_quantity quantityInput)) items
  | None =>
      (items ++ [with_Quantity product (Z2Qc (input_quantity quantityInput))])%list
  end.

(** The sum of the counted quantities of a cart. *)
Definition quantity_sum (items : list CartLineItem) : Qc :=
  fold_right Qcplus (Z2Qc 0) (map counted items).

(** The cart page shows what is stored: the list shown is the stored cart,
    and the total and the visibility of the summary are those
    [getCartTotal] computes from it. *)
Definition in_sync (p : page) : Prop :=
  exists cart,
    storage p = Text (PArray cart)
    /\ product_list p = cart
    /\ cart_total p = finalTotal cart
    /\ cart_footer_hide p = is_strictly_zero (finalTotal cart).

(** The cart remove(id) leaves in the store when the stored cart is [items]. *)
Definition removed (id : string) (items : list CartLineItem) : list CartLineItem :=
  map renormalized (without id (combineDuplicateItems items)).

End More.
Export More.

(** ** The range in which the arithmetic is exact

    The code computes with IEEE doubles, which round and overflow; the
    numbers of this development are exact.  The two agree as long as every
    value formed is a whole number of magnitude at most 2^53, and no text
    spells an infinity.  The properties whose statement depends on the
    value of a sum, a product or a parsed number are stated within that
    range. *)

Module Exact.

(** 2^53: every whole number up to it is a double, and sums and products
    of whole numbers that stay within it are computed without rounding. *)
Definition safe_bound : Z := 2 ^ 53.

(** A whole number. *)
Definition whole (q : Qc) : Prop := Qden (this q) = 1%positive.

(** The magnitude of a whole number. *)
Definition weight (q : Qc) : Z := Z.abs (Qnum (this q)).

(** The text is [Infinity], with an optional sign and white space around:
    the one numeric literal the conversion of this development does not
    read. *)
Definition infinity_literal (s : string) : bool :=
  let (_, r) := take_sign (trim (list_ascii_of_string s)) in
  (string_of_list_ascii r =? "Infinity")%string.

Definition no_infinity (v : jsval) : Prop :=
  match v with
  | JStr s => infinity_literal s = false
  | _ => True
  end.

(** A quantity that counts as a whole number: missing, null, a boolean, a
    whole number, or a text that is no number or spells a whole number. *)
Definition plain_quantity (v : jsval) : Prop :=
  whole (or_one (ToNumber v)) /\ no_infinity v.

(** The sum of the magnitudes of the counted quantities of a cart: a bound
    on every sum of quantities the code can form from it. *)
Definition quantity_load (items : list CartLineItem) : Z :=
  fold_right (fun item t => weight (counted item) + t) 0 items.

(** A cart on which the quantities are added without rounding. *)
Definition exact_cart (items : list CartLineItem) : Prop :=
  Forall (fun item => plain_quantity (Quantity item)) items
  /\ quantity_load items <= safe_bound.

(** A price that is a whole number. *)
Definition plain_price (item : CartLineItem) : Prop :=
  exists c : Z, ToNumber (FinalPrice item) = Fin (Z2Qc c).

Definition price_weight (item : CartLineItem) : Z :=
  match ToNumber (FinalPrice item) with
  | Fin q => weight q
  | NaN => 0
  end.

(** The sum of the magnitudes of the amounts of a cart: a bound on every
    product and partial sum the totalizer forms from it. *)
Definition amount_load (items : list CartLineItem) : Z :=
  fold_right (fun item t => price_weight item * weight (counted item) + t) 0 items.

(** Lines whose amounts are multiplied and added without rounding. *)
Definition exact_amounts (items : list CartLineItem) : Prop :=
  Forall plain_price items /\ amount_load items <= safe_bound.

(** An input whose quantity is read without rounding: the clamped integer
    is at most 2^53 (an integer below 1 is clamped to 1 however it is
    rounded). *)
Definition exact_input (rawValue : string) : Prop :=
  clamped_quantity rawValue <= safe_bound.

(** A quantity that is a whole number within the exact range. *)
Definition exact_whole (v : jsval) : Prop :=
  exists n : Z, v = JNum (Z2Qc n) /\ Z.abs n <= safe_bound.

End Exact.
Export Exact.

(** Closes a goal [exact_cart items] or [exact_amounts items] on a cart
    that is written out. *)
Ltac exact_range :=
  split;
  [ repeat (apply Forall_cons;
            [ first [ split; [reflexivity | first [exact I | reflexivity]]
                    | eexists; reflexivity ] |]);
    apply Forall_nil
  | vm_compute; discriminate ].

(** * Properties *)

(** ** Arithmetic of the number model *)

Section NumberFacts.

Local Open Scope Qc_scope.

Lemma Z2Qc_this (z : Z) : this (Z2Qc z) = inject_Z z.
Proof.
  unfold Z2Qc, Q2Qc. cbn [this].
  apply Qred_identity. unfold inject_Z. cbn [Qnum Qden]. apply Z.gcd_1_r.
Qed.

Lemma Z2Qc_add (a b : Z) : Z2Qc a + Z2Qc b = Z2Qc (a + b).
Proof.
  apply Qc_is_canon. unfold Qcplus. unfold Q2Qc at 1. cbn [this].
  rewrite Qred_correct, !Z2Qc_this, inject_Z_plus. reflexivity.
Qed.

Lemma Z2Qc_inj (a b : Z) : Z2Qc a = Z2Qc b -> a = b.
Proof.
  intros H. apply (f_equal this) in H. rewrite !Z2Qc_this in H.
  now injection H.
Qed.

Lemma is_zero_spec (q : Qc) : is_zero q = true <-> q = Z2Qc 0.
Proof.
  unfold is_zero. rewrite Z.eqb_eq. split.
  - intros H. apply Qc_is_canon. rewrite Z2Qc_this.
    unfold Qeq. simpl. rewrite H. reflexivity.
  - intros ->. reflexivity.
Qed.

Lemma is_zero_Z2Qc (z : Z) : is_zero (Z2Qc z) = (z =? 0)%Z.
Proof. unfold is_zero. rewrite Z2Qc_this. reflexivity. Qed.

Lemma Qccompare_Z2Qc (a b : Z) : (Z2Qc a ?= Z2Qc b) = (a ?= b)%Z.
Proof.
  unfold Qccompare, Qcompare. rewrite !Z2Qc_this. simpl.
  now rewrite !Z.mul_1_r.
Qed.

Lemma Math_max_Z2Qc (a b : Z) : Math_max (Z2Qc a) (Z2Qc b) = Z2Qc (Z.max a b).
Proof.
  unfold Math_max, Z.max. rewrite Qccompare_Z2Qc.
  destruct (a ?= b)%Z; reflexivity.
Qed.

Lemma or_one_Z2Qc (z : Z) : or_one (Fin (Z2Qc z)) = Z2Qc (if (z =? 0)%Z then 1 else z).
Proof. simpl. rewrite is_zero_Z2Qc. now destruct (z =? 0)%Z. Qed.

Lemma or_one_nonzero (q : Qc) : q <> Z2Qc 0 -> or_one (Fin q) = q.
Proof.
  intros H. simpl. destruct (is_zero q) eqn:E; [|reflexivity].
  now apply is_zero_spec in E.
Qed.

Lemma or_one_not_zero (n : number) : or_one n <> Z2Qc 0.
Proof.
  destruct n as [q|]; simpl.
  - destruct (is_zero q) eqn:E.
    + intros H. now apply Z2Qc_inj in H.
    + intros H. apply is_zero_spec in H. congruence.
  - intros H. now apply Z2Qc_inj in H.
Qed.

Lemma add_comm (a b : number) : add a b = add b a.
Proof. destruct a, b; simpl; try reflexivity. now rewrite Qcplus_comm. Qed.

Lemma add_assoc (a b c : number) : add a (add b c) = add (add a b) c.
Proof. destruct a, b, c; simpl; try reflexivity. now rewrite Qcplus_assoc. Qed.

Lemma add_zero_l (a : number) : add (Fin (Z2Qc 0)) a = a.
Proof. destruct a; simpl; [|reflexivity]. now rewrite Qcplus_0_l. Qed.

(** A left fold of [add] from zero is the sum of the list. *)
Lemma fold_left_add {A} (f : A -> number) (l : list A) (acc : number) :
  fold_left (fun t x => add t (f x)) l acc
  = add acc (fold_right (fun x t => add (f x) t) (Fin (Z2Qc 0)) l).
Proof.
  revert acc. induction l as [|x l IH]; intros acc; simpl.
  - now rewrite add_comm, add_zero_l.
  - now rewrite IH, add_assoc.
Qed.

End NumberFacts.

(** ** The map built by the normalizer *)

Section MapFacts.

Local Open Scope Qc_scope.

Lemma Map_get_None (key : string) (byId : Map) :
  Map_get key byId = None <-> ~ In key (keys byId).
Proof.
  induction byId as [|[k e] rest IH]; simpl.
  - tauto.
  - destruct (String.eqb_spec k key) as [->|Hne].
    + split; [discriminate | intros H; exfalso; apply H; now left].
    + rewrite IH. tauto.
Qed.

Lemma Map_get_In (key : string) (e : entry) (byId : Map) :
  NoDup (keys byId) -> In (key, e) byId -> Map_get key byId = Some e.
Proof.
  induction byId as [|[k e'] rest IH]; simpl; intros Hnd Hin; [easy|].
  inversion Hnd as [|? ? Hk Hrest]; subst.
  destruct Hin as [Heq|Hin].
  - injection Heq as -> ->. now rewrite String.eqb_refl.
  - destruct (String.eqb_spec k key) as [->|Hne].
    + exfalso. apply Hk. change key with (fst (key, e)). now apply in_map.
    + now apply IH.
Qed.

Lemma keys_add_Quantity (key : string) (q : Qc) (byId : Map) :
  keys (add_Quantity key q byId) = keys byId.
Proof.
  induction byId as [|[k e] rest IH]; simpl; [reflexivity|].
  destruct (k =? key)%string; simpl; [reflexivity | now rewrite IH].
Qed.

Lemma keys_visit (byId : Map) (item : CartLineItem) :
  keys (visit byId item)
  = if in_dec string_dec (Id item) (keys byId)
    then keys byId else (keys byId ++ [Id item])%list.
Proof.
  unfold visit. destruct (Map_get (Id item) byId) eqn:E.
  - rewrite keys_add_Quantity.
    destruct (in_dec string_dec (Id item) (keys byId)) as [|Hn]; [reflexivity|].
    apply Map_get_None in Hn. congruence.
  - apply Map_get_None in E.
    destruct (in_dec string_dec (Id item) (keys byId)); [contradiction|].
    unfold keys. now rewrite map_app.
Qed.

Lemma NoDup_snoc {A} (l : list A) (x : A) :
  NoDup l -> ~ In x l -> NoDup (l ++ [x]).
Proof.
  induction l as [|y l IH]; simpl; intros Hnd Hx.
  - constructor; [easy | constructor].
  - inversion Hnd; subst. constructor.
    + rewrite in_app_iff. simpl. intuition congruence.
    + apply IH; intuition.
Qed.

Lemma NoDup_keys_visit (byId : Map) (item : CartLineItem) :
  NoDup (keys byId) -> NoDup (keys (visit byId item)).
Proof.
  intros H. rewrite keys_visit.
  destruct (in_dec string_dec (Id item) (keys byId)); [assumption|].
  now apply NoDup_snoc.
Qed.

Lemma well_keyed_add_Quantity (key : string) (q : Qc) (byId : Map) :
  well_keyed byId -> well_keyed (add_Quantity key q byId).
Proof.
  unfold well_keyed. induction 1 as [|[k e] rest Hk Hrest IH]; simpl.
  - constructor.
  - destruct (k =? key)%string; constructor; assumption.
Qed.

Lemma well_keyed_visit (byId : Map) (item : CartLineItem) :
  well_keyed byId -> well_keyed (visit byId item).
Proof.
  intros H. unfold visit. destruct (Map_get (Id item) byId).
  - now apply well_keyed_add_Quantity.
  - apply Forall_app. split; [assumption|]. now constructor.
Qed.

(** The invariant of the loop: distinct keys, each entry under its id. *)
Lemma fold_visit_invariant (items : list CartLineItem) (byId : Map) :
  NoDup (keys byId) -> well_keyed byId ->
  NoDup (keys (fold_left visit items byId))
  /\ well_keyed (fold_left visit items byId).
Proof.
  revert byId. induction items as [|item items IH]; intros byId Hnd Hwk; simpl.
  - now split.
  - apply IH; [now apply NoDup_keys_visit | now apply well_keyed_visit].
Qed.

Lemma in_keys_fold_visit (items : list CartLineItem) (byId : Map) (key : string) :
  In key (keys (fold_left visit items byId))
  <-> In key (keys byId) \/ In key (map Id items).
Proof.
  revert byId. induction items as [|item items IH]; intros byId; simpl.
  - tauto.
  - rewrite IH, keys_visit.
    destruct (in_dec string_dec (Id item) (keys byId)) as [Hin|Hn].
    + intuition (subst; auto).
    + rewrite in_app_iff. simpl. tauto.
Qed.

Lemma Ids_of_objects (byId : Map) :
  well_keyed byId ->
  map Id (map (fun kv => entry_object (snd kv)) byId) = keys byId.
Proof.
  unfold well_keyed, keys. induction 1 as [|[k e] rest Hk Hrest IH]; simpl.
  - reflexivity.
  - simpl in Hk. now rewrite Hk, IH.
Qed.

(** Quantities: what one visit adds, in all and under each key. *)

Lemma held_sum_app (m1 m2 : Map) :
  held_sum (m1 ++ m2)%list = held_sum m1 + held_sum m2.
Proof.
  induction m1 as [|[k e] rest IH]; simpl.
  - now rewrite Qcplus_0_l.
  - now rewrite IH, Qcplus_assoc.
Qed.

Lemma held_sum_add_Quantity (key : string) (q : Qc) (byId : Map) (e : entry) :
  Map_get key byId = Some e ->
  held_sum (add_Quantity key q byId) = held_sum byId + q.
Proof.
  revert e. induction byId as [|[k e'] rest IH]; simpl; intros e H; [discriminate|].
  destruct (k =? key)%string; simpl.
  - rewrite <- !Qcplus_assoc. f_equal. apply Qcplus_comm.
  - rewrite (IH _ H). now rewrite Qcplus_assoc.
Qed.

Lemma held_sum_visit (byId : Map) (item : CartLineItem) :
  held_sum (visit byId item) = held_sum byId + counted item.
Proof.
  unfold visit. fold (counted item).
  destruct (Map_get (Id item) byId) eqn:E.
  - now apply held_sum_add_Quantity with (e := e).
  - rewrite held_sum_app. simpl. now rewrite Qcplus_0_r.
Qed.

Lemma held_sum_fold_visit (items : list CartLineItem) (byId : Map) :
  held_sum (fold_left visit items byId)
  = held_sum byId + fold_right Qcplus (Z2Qc 0) (map counted items).
Proof.
  revert byId. induction items as [|item items IH]; intros byId; simpl.
  - now rewrite Qcplus_0_r.
  - now rewrite IH, held_sum_visit, Qcplus_assoc.
Qed.

End MapFacts.


(** ** What the normalizer returns *)

Section NormalizerFacts.

Local Open Scope Qc_scope.

Lemma Map_get_add_Quantity (key k : string) (q : Qc) (byId : Map) :
  Map_get key (add_Quantity k q byId)
  = match Map_get key byId with
    | Some e =>
        Some (if (k =? key)%string
              then {| first_seen := first_seen e; total := total e + q |}
              else e)
    | None => None
    end.
Proof.
  induction byId as [|[k' e'] rest IH]; simpl; [reflexivity|].
  destruct (String.eqb_spec k' k) as [->|Hk]; simpl.
  - destruct (k =? key)%string; [reflexivity|].
    now destruct (Map_get key rest).
  - destruct (String.eqb_spec k' key) as [->|Hne].
    + destruct (String.eqb_spec k key); [congruence | reflexivity].
    + apply IH.
Qed.

Lemma Map_get_snoc (key k : string) (e : entry) (byId : Map) :
  Map_get key (byId ++ [(k, e)])%list
  = match Map_get key byId with
    | Some e' => Some e'
    | None => if (k =? key)%string then Some e else None
    end.
Proof.
  induction byId as [|[k' e'] rest IH]; simpl; [reflexivity|].
  destruct (k' =? key)%string; [reflexivity | apply IH].
Qed.

Lemma held_visit (key : string) (byId : Map) (item : CartLineItem) :
  held key (visit byId item)
  = held key byId + (if (Id item =? key)%string then counted item else Z2Qc 0).
Proof.
  unfold held, visit. fold (counted item).
  destruct (Map_get (Id item) byId) eqn:E.
  - rewrite Map_get_add_Quantity.
    destruct (String.eqb_spec (Id item) key) as [<-|Hne].
    + rewrite E. reflexivity.
    + destruct (Map_get key byId); now rewrite Qcplus_0_r.
  - rewrite Map_get_snoc.
    destruct (String.eqb_spec (Id item) key) as [<-|Hne].
    + rewrite E. simpl. now rewrite Qcplus_0_l.
    + destruct (Map_get key byId); now rewrite Qcplus_0_r.
Qed.

Lemma group_quantity_cons (key : string) (item : CartLineItem) (items : list CartLineItem) :
  group_quantity key (item :: items)
  = (if (Id item =? key)%string then counted item else Z2Qc 0)
    + group_quantity key items.
Proof.
  unfold group_quantity. simpl.
  destruct (Id item =? key)%string; simpl; [reflexivity | now rewrite Qcplus_0_l].
Qed.

Lemma held_fold_visit (key : string) (items : list CartLineItem) (byId : Map) :
  held key (fold_left visit items byId)
  = held key byId + group_quantity key items.
Proof.
  revert byId. induction items as [|item items IH]; intros byId; simpl.
  - unfold group_quantity. simpl. now rewrite Qcplus_0_r.
  - now rewrite IH, held_visit, group_quantity_cons, Qcplus_assoc.
Qed.

(** The ids of the output are distinct. *)
Lemma combine_NoDup (items : list CartLineItem) :
  NoDup (map Id (combineDuplicateItems items)).
Proof.
  unfold combineDuplicateItems.
  destruct (fold_visit_invariant items []) as [Hnd Hwk];
    [constructor | constructor |].
  now rewrite Ids_of_objects.
Qed.

(** The ids of the output are the ids of the input. *)
Lemma combine_Ids (items : list CartLineItem) (key : string) :
  In key (map Id (combineDuplicateItems items)) <-> In key (map Id items).
Proof.
  unfold combineDuplicateItems.
  destruct (fold_visit_invariant items []) as [Hnd Hwk];
    [constructor | constructor |].
  rewrite Ids_of_objects by assumption.
  rewrite in_keys_fold_visit. simpl. tauto.
Qed.

(** Each output item carries a number: the sum of the counted quantities
    of the input items with its id. *)
Lemma combine_Quantity (items : list CartLineItem) (item : CartLineItem) :
  In item (combineDuplicateItems items) ->
  Quantity item = JNum (group_quantity (Id item) items).
Proof.
  unfold combineDuplicateItems.
  destruct (fold_visit_invariant items []) as [Hnd Hwk];
    [constructor | constructor |].
  intros Hin. apply in_map_iff in Hin. destruct Hin as [[k e] [<- Hin]].
  pose proof (Map_get_In k e _ Hnd Hin) as Hget.
  unfold well_keyed in Hwk. rewrite Forall_forall in Hwk.
  specialize (Hwk _ Hin). simpl in Hwk. simpl. rewrite Hwk.
  pose proof (held_fold_visit k items []) as H.
  unfold held in H at 1. rewrite Hget in H. rewrite H.
  unfold held. simpl. now rewrite Qcplus_0_l.
Qed.

Lemma sum_quantities_objects (byId : Map) :
  sum_quantities ToNumber (map (fun kv => entry_object (snd kv)) byId)
  = Fin (held_sum byId).
Proof.
  unfold sum_quantities.
  induction byId as [|[k e] rest IH]; [reflexivity|].
  cbn [map fold_right]. rewrite IH. reflexivity.
Qed.

(** The output quantities add up to the counted input quantities. *)
Lemma combine_sum (items : list CartLineItem) :
  sum_quantities ToNumber (combineDuplicateItems items)
  = Fin (fold_right Qcplus (Z2Qc 0) (map counted items)).
Proof.
  unfold combineDuplicateItems.
  rewrite sum_quantities_objects, held_sum_fold_visit.
  simpl held_sum. f_equal. apply Qcplus_0_l.
Qed.

(** On items with distinct ids the loop only appends. *)
Lemma fold_visit_distinct (items : list CartLineItem) (byId : Map) :
  NoDup (map Id items) ->
  (forall item, In item items -> ~ In (Id item) (keys byId)) ->
  fold_left visit items byId
  = (byId ++ map (fun item => (Id item, {| first_seen := item; total := counted item |})) items)%list.
Proof.
  revert byId. induction items as [|item items IH]; intros byId Hnd Hfresh; simpl.
  - now rewrite app_nil_r.
  - inversion Hnd as [|? ? Hhd Htl]; subst.
    assert (E : Map_get (Id item) byId = None).
    { apply Map_get_None. apply Hfresh. now left. }
    unfold visit at 2. rewrite E. fold (counted item).
    rewrite IH; [now rewrite <- app_assoc | assumption |].
    intros item' Hin'. unfold keys. rewrite map_app, in_app_iff. simpl.
    intros [H|[H|[]]].
    + apply (Hfresh item'); [now right | exact H].
    + apply Hhd. rewrite H. now apply in_map.
Qed.

(** On items with distinct ids the normalizer only reads each quantity again. *)
Lemma combine_distinct (items : list CartLineItem) :
  NoDup (map Id items) ->
  combineDuplicateItems items = map renormalized items.
Proof.
  intros Hnd. unfold combineDuplicateItems.
  rewrite fold_visit_distinct; [| assumption | intros ? ? []].
  simpl. rewrite map_map. reflexivity.
Qed.

(** Normalizing twice reads each merged quantity once more. *)
Lemma combine_twice (items : list CartLineItem) :
  combineDuplicateItems (combineDuplicateItems items)
  = map renormalized (combineDuplicateItems items).
Proof. apply combine_distinct, combine_NoDup. Qed.

Lemma renormalized_fixed (item : CartLineItem) (q : Qc) :
  Quantity item = JNum q -> q <> Z2Qc 0 -> renormalized item = item.
Proof.
  intros Hq Hnz. unfold renormalized, counted, with_Quantity.
  rewrite Hq. simpl ToNumber. rewrite or_one_nonzero by assumption.
  destruct item; simpl in *. now subst.
Qed.

Lemma Ids_renormalized (items : list CartLineItem) :
  map Id (map renormalized items) = map Id items.
Proof. rewrite map_map. reflexivity. Qed.

Lemma filter_Ids_NoDup (f : CartLineItem -> bool) (items : list CartLineItem) :
  NoDup (map Id items) -> NoDup (map Id (filter f items)).
Proof.
  induction items as [|item items IH]; simpl; intros Hnd; [constructor|].
  inversion Hnd as [|? ? Hhd Htl]; subst.
  destruct (f item); simpl; [|now apply IH].
  constructor; [|now apply IH].
  intros Hin. apply Hhd. apply in_map_iff in Hin. destruct Hin as [x [Hx Hin]].
  apply filter_In in Hin. rewrite <- Hx. now apply in_map.
Qed.

End NormalizerFacts.


(** ** What the controller does to the page *)

Section ControllerFacts.

(** Every function of the cart starts by reading the stored cart. *)
Lemma read_cart {B} (k : list CartLineItem -> M B) (p : page) :
  (v <- getLocalStorage ;; items <- array_of (or_empty v) ;; k items) p
  = match stored_cart (storage p) with
    | inr items => k items p
    | inl e => Throw e p
    end.
Proof.
  unfold bind, getLocalStorage, stored_cart, or_empty.
  destruct (storage p) as [| |v]; try reflexivity.
  destruct v as [|[]|q|s|  |items]; simpl; try reflexivity.
  - destruct (is_zero q); reflexivity.
  - destruct (s =? "")%string; reflexivity.
Qed.

Lemma renderCartContents_run (p : page) :
  renderCartContents p
  = match stored_cart (storage p) with
    | inr items => Return tt (rendered items p)
    | inl e => Throw e p
    end.
Proof.
  unfold renderCartContents. rewrite read_cart.
  destruct (stored_cart (storage p)); reflexivity.
Qed.

Lemma getCartTotal_run (p : page) :
  getCartTotal p
  = match stored_cart (storage p) with
    | inr items => Return (finalTotal items) (totalled items p)
    | inl e => Throw e p
    end.
Proof.
  unfold getCartTotal. rewrite read_cart.
  destruct (stored_cart (storage p)); reflexivity.
Qed.

Lemma countCartItems_array (items : list CartLineItem) (p : page) :
  storage p = Text (PArray items) ->
  countCartItems p = Return tt (badged items p).
Proof.
  destruct p as [s w pl ct fh hb bh cc]. simpl. intros ->.
  unfold countCartItems, bind, getLocalStorage, badged. simpl.
  destruct hb; reflexivity.
Qed.

(** A write followed by the three refreshing calls. *)
Lemma refresh_run (data : list CartLineItem) (p : page) :
  (setLocalStorage data ;;; renderCartContents ;;; getCartTotal ;;; countCartItems) p
  = Return tt (refreshed data p).
Proof.
  unfold bind at 1. unfold setLocalStorage, modify. fold (saved data p).
  unfold bind at 1. rewrite renderCartContents_run. simpl stored_cart. cbv iota.
  unfold bind at 1. rewrite getCartTotal_run. simpl stored_cart. cbv iota.
  now rewrite (countCartItems_array (combineDuplicateItems data)).
Qed.

Lemma removeFromCart_run (itemId : string) (p : page) :
  removeFromCart itemId p
  = match stored_cart (storage p) with
    | inr items =>
        Return tt
          (refreshed
             (filter (fun item => negb (Id item =? itemId)%string)
                     (combineDuplicateItems items)) p)
    | inl e => Throw e p
    end.
Proof.
  unfold removeFromCart. rewrite read_cart.
  destruct (stored_cart (storage p)); [reflexivity|].
  apply refresh_run.
Qed.

Lemma set_quantity_run (id rawValue : string) (p : page) :
  set_quantity id rawValue p
  = match stored_cart (storage p) with
    | inr items =>
        match find (fun cartItem => (Id cartItem =? id)%string)
                   (combineDuplicateItems items) with
        | Some _ =>
            Return tt
              (refreshed
                 (assign_Quantity id
                    (Math_max (Z2Qc 1) (or_one (parseInt rawValue)))
                    (combineDuplicateItems items)) p)
        | None => Return tt p
        end
    | inl e => Throw e p
    end.
Proof.
  unfold set_quantity, on_change. cbn [classList dataset_id value contains existsb].
  rewrite String.eqb_refl. cbn [orb]. rewrite read_cart.
  destruct (stored_cart (storage p)); [reflexivity|].
  destruct (find _ _); [apply refresh_run | reflexivity].
Qed.

Lemma remove_run (id : string) (p : page) :
  remove id p = removeFromCart id p.
Proof.
  unfold remove, on_click. cbn [classList dataset_id contains existsb].
  now rewrite String.eqb_refl.
Qed.

Lemma storage_badged (items : list CartLineItem) (p : page) :
  storage (badged items p) = storage p
  /\ writes (badged items p) = writes p
  /\ product_list (badged items p) = product_list p
  /\ cart_total (badged items p) = cart_total p
  /\ cart_footer_hide (badged items p) = cart_footer_hide p.
Proof. unfold badged. destruct (has_badge p); simpl; auto. Qed.

(** What a refresh leaves in the storage, the write history and the
    summary region. *)
Lemma refreshed_page (data : list CartLineItem) (p : page) :
  storage (refreshed data p) = Text (PArray (combineDuplicateItems data))
  /\ writes (refreshed data p) = (writes p ++ [data; combineDuplicateItems data])%list
  /\ product_list (refreshed data p) = combineDuplicateItems data
  /\ cart_total (refreshed data p) = finalTotal (combineDuplicateItems data)
  /\ cart_footer_hide (refreshed data p)
     = is_strictly_zero (finalTotal (combineDuplicateItems data)).
Proof.
  unfold refreshed.
  destruct (storage_badged (combineDuplicateItems data)
              (totalled (combineDuplicateItems data) (rendered data (saved data p))))
    as (-> & -> & -> & -> & ->).
  simpl. rewrite <- app_assoc. auto.
Qed.

End ControllerFacts.


(** ** Within the exact range *)

Section ExactFacts.

Local Open Scope Qc_scope.

Lemma whole_Z2Qc (n : Z) : whole (Z2Qc n).
Proof. unfold whole. now rewrite Z2Qc_this. Qed.

Lemma weight_Z2Qc (n : Z) : weight (Z2Qc n) = Z.abs n.
Proof. unfold weight. now rewrite Z2Qc_this. Qed.

Lemma whole_is_Z2Qc (q : Qc) : whole q -> q = Z2Qc (Qnum (this q)).
Proof.
  unfold whole. intros H. apply Qc_is_canon. rewrite Z2Qc_this.
  destruct q as [[a d] c]. simpl in *. subst d. reflexivity.
Qed.

Lemma whole_sum (a b : Qc) :
  whole a -> whole b ->
  whole (a + b) /\ (weight (a + b) <= weight a + weight b)%Z.
Proof.
  intros Ha Hb. rewrite (whole_is_Z2Qc a Ha), (whole_is_Z2Qc b Hb), Z2Qc_add.
  split; [apply whole_Z2Qc|]. rewrite !weight_Z2Qc. lia.
Qed.

Lemma quantity_load_nonneg (items : list CartLineItem) :
  (0 <= quantity_load items)%Z.
Proof.
  induction items as [|item items IH]; simpl; [lia|].
  unfold weight at 1. lia.
Qed.

(** Within an exact cart every sum of quantities under an id is a whole
    number no larger than the load of the cart. *)
Lemma group_quantity_exact (key : string) (items : list CartLineItem) :
  Forall (fun item => plain_quantity (Quantity item)) items ->
  whole (group_quantity key items)
  /\ (weight (group_quantity key items) <= quantity_load items)%Z.
Proof.
  induction 1 as [|item items [Hitem _] _ [IHw IHb]].
  - split; [apply whole_Z2Qc | reflexivity].
  - rewrite group_quantity_cons. simpl quantity_load.
    fold (counted item) in Hitem.
    destruct (Id item =? key)%string.
    + destruct (whole_sum _ _ Hitem IHw) as [Hw Hb]. split; [assumption | lia].
    + destruct (whole_sum _ _ (whole_Z2Qc 0) IHw) as [Hw Hb].
      split; [assumption|]. rewrite weight_Z2Qc in Hb. unfold weight at 2. lia.
Qed.

Lemma combine_exact (items : list CartLineItem) :
  exact_cart items ->
  Forall (fun item => exact_whole (Quantity item)) (combineDuplicateItems items).
Proof.
  intros [Hq Hb]. apply Forall_forall. intros item Hin.
  destruct (group_quantity_exact (Id item) items Hq) as [Hw Hl].
  exists (Qnum (this (group_quantity (Id item) items))). split.
  - rewrite (combine_Quantity items item Hin). f_equal. now apply whole_is_Z2Qc.
  - unfold weight in Hl. lia.
Qed.

End ExactFacts.


(** * The claims of the specification *)

(** ** The normalizer *)

Section NormalizerClaims.

Local Open Scope Qc_scope.

Lemma counted_or_zero_as_one_spec (v : jsval) :
  counted_or_zero_as_one v = Fin (or_one (ToNumber v)).
Proof.
  unfold counted_or_zero_as_one, counted_as_stated.
  destruct v as [| |[]|q|s]; try reflexivity.
  - simpl. now destruct (is_zero q).
  - simpl. destruct (StringToNumber s) as [q|]; [|reflexivity].
    simpl. now destruct (is_zero q).
Qed.

Lemma sum_quantities_counted (items : list CartLineItem) :
  sum_quantities counted_or_zero_as_one items
  = Fin (fold_right Qcplus (Z2Qc 0) (map counted items)).
Proof.
  unfold sum_quantities.
  induction items as [|item items IH]; [reflexivity|].
  cbn [fold_right map]. rewrite IH, counted_or_zero_as_one_spec. reflexivity.
Qed.

(** C1, as stated, fails: an input quantity of zero is a number, so the
    claim counts it as 0, but the normalizer counts it as 1.  On the cart
    [[{Id:"A", Quantity:0}]] the output quantities sum to 1 and the input
    quantities, counted as the claim says, to 0. *)
Lemma C1_zero_quantity_counts_as_one :
  sum_quantities ToNumber (combineDuplicateItems [line "A" 10 0])
  <> sum_quantities counted_as_stated [line "A" 10 0].
Proof.
  vm_compute. intros H. inversion H.
Qed.

(** C1, amended: for every input sequence the output of the normalizer has
    no two entries with the same Id; and when the input quantities are
    whole numbers the sum of whose magnitudes is at most 2^53, so that the
    code adds them without rounding, every output quantity is a whole
    number within that range, and the output quantities sum to the input
    quantities, where an input quantity that is missing, null, not
    coercible to a number, or zero is counted as 1. *)
Theorem C1_distinct_ids_and_quantity_sum (items : list CartLineItem) :
  NoDup (map Id (combineDuplicateItems items))
  /\ (exact_cart items ->
      Forall (fun item => exact_whole (Quantity item)) (combineDuplicateItems items)
      /\ sum_quantities ToNumber (combineDuplicateItems items)
         = sum_quantities counted_or_zero_as_one items).
Proof.
  split.
  - apply combine_NoDup.
  - intros Hx. split.
    + now apply combine_exact.
    + now rewrite combine_sum, sum_quantities_counted.
Qed.

Lemma C1_distinct_ids_and_quantity_sum_witness :
  let items := [ line "A" 10 2;
                 {| Id := "A"; FinalPrice := JNum (Z2Qc 10);
                    Quantity := JStr "abc"; Props := [] |};
                 line "B" 5 0; line "A" 10 3 ] in
  exact_cart items
  /\ NoDup (map Id (combineDuplicateItems items))
  /\ Forall (fun item => exact_whole (Quantity item)) (combineDuplicateItems items)
  /\ sum_quantities ToNumber (combineDuplicateItems items) = Fin (Z2Qc 7)
  /\ sum_quantities counted_or_zero_as_one items = Fin (Z2Qc 7).
Proof.
  assert (Hx : exact_cart [ line "A" 10 2;
                            {| Id := "A"; FinalPrice := JNum (Z2Qc 10);
                               Quantity := JStr "abc"; Props := [] |};
                            line "B" 5 0; line "A" 10 3 ]) by exact_range.
  split; [exact Hx|].
  split; [exact (proj1 (C1_distinct_ids_and_quantity_sum _))|].
  split; [exact (proj1 (proj2 (C1_distinct_ids_and_quantity_sum _) Hx))|].
  split; [|reflexivity].
  rewrite (proj2 (proj2 (C1_distinct_ids_and_quantity_sum _) Hx)). reflexivity.
Defined.

(** C2, as stated, fails: quantities 3 and -3 under one Id merge to 0, and
    normalizing again reads that 0 as 1. *)
Lemma C2_cancelling_quantities_not_idempotent :
  combineDuplicateItems (combineDuplicateItems [line "A" 10 3; line "A" 10 (-3)])
  <> combineDuplicateItems [line "A" 10 3; line "A" 10 (-3)].
Proof.
  vm_compute. intros H. inversion H.
Qed.

(** C2, amended: the normalizer is idempotent on every input whose
    quantities are whole numbers the sum of whose magnitudes is at most
    2^53 (so that the code adds them without rounding) and whose merged
    quantities are all different from zero. *)
Theorem C2_idempotent_without_zero_quantity (items : list CartLineItem) :
  exact_cart items ->
  (forall item, In item (combineDuplicateItems items) ->
                Quantity item <> JNum (Z2Qc 0)) ->
  combineDuplicateItems (combineDuplicateItems items)
  = combineDuplicateItems items.
Proof.
  intros _ Hnz. rewrite combine_twice.
  rewrite <- (map_id (combineDuplicateItems items)) at 2.
  apply map_ext_in. intros item Hin.
  apply renormalized_fixed with (q := group_quantity (Id item) items).
  - now apply combine_Quantity.
  - intros Hz. apply (Hnz item Hin).
    rewrite (combine_Quantity items item Hin). now rewrite Hz.
Qed.

Lemma C2_idempotent_witness :
  let items := [line "A" 10 2; line "A" 10 3; line "B" 5 1] in
  exact_cart items
  /\ (forall item, In item (combineDuplicateItems items) ->
                   Quantity item <> JNum (Z2Qc 0))
  /\ combineDuplicateItems (combineDuplicateItems items)
     = combineDuplicateItems items.
Proof.
  assert (Hx : exact_cart [line "A" 10 2; line "A" 10 3; line "B" 5 1])
    by exact_range.
  assert (H : forall item,
             In item (combineDuplicateItems [line "A" 10 2; line "A" 10 3; line "B" 5 1]) ->
             Quantity item <> JNum (Z2Qc 0)).
  { intros item Hin. vm_compute in Hin.
    destruct Hin as [<-|[<-|[]]]; intros H; inversion H. }
  split; [exact Hx|].
  split; [exact H|].
  exact (C2_idempotent_without_zero_quantity _ Hx H).
Defined.

End NormalizerClaims.

(** ** The quantity invariant *)

Section QuantityClaims.

Local Open Scope Qc_scope.

Lemma counted_natural (item : CartLineItem) :
  natural_or_not_a_number (Quantity item) ->
  exists n : Z, (1 <= n)%Z /\ counted item = Z2Qc n.
Proof.
  unfold counted. intros [H|[n [Hn H]]]; rewrite H.
  - exists 1%Z. split; [lia | reflexivity].
  - rewrite or_one_Z2Qc. destruct (Z.eqb_spec n 0).
    + exists 1%Z. split; [lia | reflexivity].
    + exists n. split; [lia | reflexivity].
Qed.

Lemma group_quantity_natural (key : string) (items : list CartLineItem) :
  Forall (fun item => natural_or_not_a_number (Quantity item)) items ->
  exists n : Z, (0 <= n)%Z /\ group_quantity key items = Z2Qc n
                /\ (In key (map Id items) -> (1 <= n)%Z).
Proof.
  induction 1 as [|item items Hitem Hitems IH].
  - exists 0%Z. repeat split; [lia | intros []].
  - destruct IH as [n [Hn [Hsum Hpos]]].
    destruct (counted_natural item Hitem) as [c [Hc Hcount]].
    rewrite group_quantity_cons, Hsum. simpl map.
    destruct (String.eqb_spec (Id item) key) as [Heq|Hne].
    + exists (c + n)%Z. rewrite Hcount, Z2Qc_add. repeat split; lia.
    + exists n. rewrite Z2Qc_add. repeat split; [lia|].
      intros [H|H]; [contradiction | auto].
Qed.

Lemma combine_positive_integers (items : list CartLineItem) :
  Forall (fun item => natural_or_not_a_number (Quantity item)) items ->
  Forall (fun item => positive_integer (Quantity item)) (combineDuplicateItems items).
Proof.
  intros H. apply Forall_forall. intros item Hin.
  destruct (group_quantity_natural (Id item) items H) as [n [_ [Hsum Hpos]]].
  exists n. split.
  - apply Hpos. apply combine_Ids. now apply in_map.
  - now rewrite (combine_Quantity items item Hin), Hsum.
Qed.

(** C3, as stated, fails: a negative quantity is kept as it is.  After the
    cart [[{Id:"A", Quantity:-3}]] is normalized and persisted, its line
    still has the quantity -3. *)
Lemma C3_negative_quantity_is_kept :
  let p := page_with (Text (PArray [line "A" 10 (-3)])) in
  renderCartContents p = Return tt (rendered [line "A" 10 (-3)] p)
  /\ storage (rendered [line "A" 10 (-3)] p) = Text (PArray [line "A" 10 (-3)])
  /\ ~ positive_integer (Quantity (line "A" 10 (-3))).
Proof.
  repeat split.
  intros [n [Hn H]]. unfold line in H. cbn [Quantity] in H.
  assert (E : Z2Qc (-3) = Z2Qc n) by congruence.
  apply Z2Qc_inj in E. lia.
Qed.

(** C3, amended: after normalization every line item of the persisted cart
    has a quantity that is a positive integer, at minimum 1 and at most
    2^53, provided every quantity of the input is a natural number (zero
    included) or is not coercible to a number, and the quantities, so
    counted, sum to at most 2^53 (beyond it the code rounds, and a sum that
    overflows is persisted as null); negative and fractional quantities are
    summed as they are. *)
Theorem C3_persisted_quantities_positive (p : page) (items : list CartLineItem) :
  storage p = Text (PArray items) ->
  Forall (fun item => natural_or_not_a_number (Quantity item)) items ->
  exact_cart items ->
  exists p' cart,
    renderCartContents p = Return tt p'
    /\ storage p' = Text (PArray cart)
    /\ cart = combineDuplicateItems items
    /\ Forall (fun item => positive_integer (Quantity item)) cart
    /\ Forall (fun item => exact_whole (Quantity item)) cart.
Proof.
  intros Hs Hq Hx. exists (rendered items p), (combineDuplicateItems items).
  rewrite renderCartContents_run, Hs. repeat split.
  - now apply combine_positive_integers.
  - now apply combine_exact.
Qed.

Lemma C3_persisted_quantities_witness :
  exists p' cart,
    renderCartContents
      (page_with (Text (PArray [ {| Id := "A"; FinalPrice := JNum (Z2Qc 10);
                                    Quantity := JStr "abc"; Props := [] |};
                                 line "A" 10 0; line "B" 5 2 ])))
    = Return tt p'
    /\ storage p' = Text (PArray cart)
    /\ cart = combineDuplicateItems
                [ {| Id := "A"; FinalPrice := JNum (Z2Qc 10);
                     Quantity := JStr "abc"; Props := [] |};
                  line "A" 10 0; line "B" 5 2 ]
    /\ Forall (fun item => positive_integer (Quantity item)) cart
    /\ Forall (fun item => exact_whole (Quantity item)) cart.
Proof.
  apply C3_persisted_quantities_positive; [reflexivity| |exact_range].
  apply Forall_cons; [now left|].
  apply Forall_cons; [right; exists 0%Z; split; [lia | reflexivity]|].
  apply Forall_cons; [right; exists 2%Z; split; [lia | reflexivity]|].
  apply Forall_nil.
Defined.

End QuantityClaims.

(** ** Missing and malformed persisted data *)

Section StorageClaims.

Lemma stored_cart_nothing (s : persisted) :
  reads_as_nothing s -> stored_cart s = inr [].
Proof.
  intros [->|[v [-> Hv]]]; simpl; [reflexivity | now rewrite Hv].
Qed.

(** C4, as stated, fails: nothing in the cart script catches an error.  On
    a text that does not parse, [JSON.parse] throws a [SyntaxError] out of
    every cart operation; on a value that is not an array but is truthy (an
    object, say) the call of [forEach] throws a [TypeError]. *)
Lemma C4_malformed_storage_throws :
  (missing_or_malformed Unparseable
   /\ let p := page_with Unparseable in
      load_and_display p = Throw SyntaxError p
      /\ remove "A" p = Throw SyntaxError p
      /\ set_quantity "A" "2" p = Throw SyntaxError p
      /\ getCartTotal p = Throw SyntaxError p)
  /\ (missing_or_malformed (Text PObject)
      /\ let p := page_with (Text PObject) in
         load_and_display p = Throw TypeError p
         /\ remove "A" p = Throw TypeError p
         /\ set_quantity "A" "2" p = Throw TypeError p
         /\ getCartTotal p = Throw TypeError p).
Proof.
  split; split.
  - right. now left.
  - repeat split.
  - right. right. exists PObject. split; [reflexivity | discriminate].
  - repeat split.
Qed.

(** C4, amended: when the cart key is absent, or holds a text that parses
    to a falsy value ([null], [false], [0] or the empty string), every cart
    operation (load-and-display, remove, set-quantity, total) treats the
    persisted state as an empty cart and does not throw: the list shown and
    the cart persisted are empty, the total is 0 with the summary hidden,
    and set-quantity changes nothing. *)
Theorem C4_nothing_stored_is_an_empty_cart (p : page) :
  reads_as_nothing (storage p) ->
  (exists p', load_and_display p = Return (Fin (Z2Qc 0)) p'
              /\ storage p' = Text (PArray [])
              /\ product_list p' = []
              /\ cart_footer_hide p' = true)
  /\ (forall id, exists p',
        remove id p = Return tt p'
        /\ storage p' = Text (PArray [])
        /\ product_list p' = []
        /\ cart_total p' = Fin (Z2Qc 0)
        /\ cart_footer_hide p' = true)
  /\ (forall id rawValue, set_quantity id rawValue p = Return tt p)
  /\ (exists p', getCartTotal p = Return (Fin (Z2Qc 0)) p'
                 /\ storage p' = storage p
                 /\ cart_footer_hide p' = true).
Proof.
  intros H. apply stored_cart_nothing in H. repeat split.
  - exists (totalled [] (rendered [] p)).
    unfold load_and_display, bind.
    rewrite renderCartContents_run, H, getCartTotal_run. repeat split.
  - intros id. exists (refreshed [] p).
    rewrite remove_run, removeFromCart_run, H. cbn [combineDuplicateItems filter].
    split; [reflexivity|].
    destruct (refreshed_page [] p) as (-> & _ & -> & -> & ->). repeat split.
  - intros id rawValue. rewrite set_quantity_run, H. reflexivity.
  - exists (totalled [] p). rewrite getCartTotal_run, H. repeat split.
Qed.

Lemma C4_nothing_stored_witness :
  let p := page_with NoKey in
  reads_as_nothing (storage p)
  /\ (exists p', load_and_display p = Return (Fin (Z2Qc 0)) p'
                 /\ storage p' = Text (PArray [])
                 /\ product_list p' = []
                 /\ cart_footer_hide p' = true)
  /\ (forall id rawValue, set_quantity id rawValue p = Return tt p).
Proof.
  assert (H : reads_as_nothing (storage (page_with NoKey))) by now left.
  split; [exact H|].
  split; [exact (proj1 (C4_nothing_stored_is_an_empty_cart _ H))|].
  exact (proj1 (proj2 (proj2 (C4_nothing_stored_is_an_empty_cart _ H)))).
Defined.

End StorageClaims.

(** ** Removing a line *)

Section RemoveClaims.

Local Open Scope Qc_scope.

Lemma filter_other_ids (id : string) (items : list CartLineItem) :
  ~ In id (map Id items) ->
  filter (fun item => negb (Id item =? id)%string) items = items.
Proof.
  induction items as [|item items IH]; simpl; intros H; [reflexivity|].
  destruct (String.eqb_spec (Id item) id) as [Heq|Hne]; simpl.
  - exfalso. apply H. now left.
  - rewrite IH; [reflexivity | tauto].
Qed.

Lemma in_filter_other_ids (id key : string) (items : list CartLineItem) :
  In key (map Id (filter (fun item => negb (Id item =? id)%string) items))
  <-> key <> id /\ In key (map Id items).
Proof.
  rewrite !in_map_iff. split.
  - intros [item [<- Hin]]. apply filter_In in Hin. destruct Hin as [Hin Hne].
    apply negb_true_iff, String.eqb_neq in Hne. split; [assumption|].
    now exists item.
  - intros [Hne [item [<- Hin]]]. exists item. split; [reflexivity|].
    apply filter_In. split; [assumption|].
    now apply negb_true_iff, String.eqb_neq.
Qed.

(** What remove(id) leaves behind, for any stored cart. *)
Lemma remove_stored_cart (p : page) (items : list CartLineItem) (id : string) :
  storage p = Text (PArray items) ->
  let kept := filter (fun item => negb (Id item =? id)%string)
                     (combineDuplicateItems items) in
  remove id p = Return tt (refreshed kept p)
  /\ writes (refreshed kept p) = (writes p ++ [kept; combineDuplicateItems kept])%list
  /\ storage (refreshed kept p) = Text (PArray (combineDuplicateItems kept))
  /\ cart_total (refreshed kept p) = finalTotal (combineDuplicateItems kept).
Proof.
  intros Hs kept. rewrite remove_run, removeFromCart_run, Hs. simpl stored_cart.
  destruct (refreshed_page kept p) as (H1 & H2 & _ & H3 & _).
  repeat split; assumption.
Qed.

Lemma kept_unchanged_by_reload (kept : list CartLineItem) :
  NoDup (map Id kept) ->
  (forall item, In item kept -> exists q, Quantity item = JNum q /\ q <> Z2Qc 0) ->
  combineDuplicateItems kept = kept.
Proof.
  intros Hnd Hq. rewrite combine_distinct by assumption.
  rewrite <- (map_id kept) at 2. apply map_ext_in. intros item Hin.
  destruct (Hq item Hin) as [q [Hquant Hnz]].
  now apply renormalized_fixed with (q := q).
Qed.

(** C5, as stated, fails: the reload that follows the write normalizes
    the filtered cart once more, and that reads a merged quantity of zero
    as 1.  From the cart [[{Id:"A",Quantity:3},{Id:"A",Quantity:-3},
    {Id:"B",Quantity:1}]], remove("B") writes the normalized cart without
    B, [[{Id:"A",Quantity:0}]], and leaves [[{Id:"A",Quantity:1}]] in the
    store. *)
Lemma C5_cancelled_line_is_stored_as_one :
  let items := [line "A" 10 3; line "A" 10 (-3); line "B" 5 1] in
  let p := page_with (Text (PArray items)) in
  let kept := filter (fun item => negb (Id item =? "B")%string)
                     (combineDuplicateItems items) in
  exists p',
    remove "B" p = Return tt p'
    /\ kept = [line "A" 10 0]
    /\ storage p' = Text (PArray [line "A" 10 1])
    /\ storage p' <> Text (PArray kept).
Proof.
  eexists. split; [|split; [|split]].
  - rewrite remove_run, removeFromCart_run. reflexivity.
  - reflexivity.
  - now destruct (refreshed_page
                    (filter (fun item => negb (Id item =? "B")%string)
                       (combineDuplicateItems
                          [line "A" 10 3; line "A" 10 (-3); line "B" 5 1]))
                    (page_with (Text (PArray [line "A" 10 3; line "A" 10 (-3);
                                              line "B" 5 1]))))
      as (-> & _).
  - destruct (refreshed_page
                (filter (fun item => negb (Id item =? "B")%string)
                   (combineDuplicateItems
                      [line "A" 10 3; line "A" 10 (-3); line "B" 5 1]))
                (page_with (Text (PArray [line "A" 10 3; line "A" 10 (-3);
                                          line "B" 5 1]))))
      as (-> & _).
    vm_compute. intros H. inversion H.
Qed.

(** C5, amended: for every persisted cart whose quantities are whole
    numbers the sum of whose magnitudes is at most 2^53 (so that the code
    adds them without rounding) and every id, remove(id) writes the
    normalized cart with every line item whose Id equals id filtered out,
    and the reload that follows writes that cart with each quantity of zero
    replaced by 1.  So the persisted cart has no line with the removed id,
    and it is the filtered normalized cart when no kept line has a merged
    quantity of zero.  In particular, from the cart
    [[{Id:"A",Quantity:2},{Id:"A",Quantity:3},{Id:"B",Quantity:1}]],
    remove("A") leaves the persisted cart [[{Id:"B",Quantity:1}]] and the
    total shown is B's price times its quantity. *)
Theorem C5_remove_persists_the_filtered_cart :
  (forall (p : page) (items : list CartLineItem) (id : string),
     storage p = Text (PArray items) ->
     exact_cart items ->
     let kept := filter (fun item => negb (Id item =? id)%string)
                        (combineDuplicateItems items) in
     exists p',
       remove id p = Return tt p'
       /\ writes p' = (writes p ++ [kept; map renormalized kept])%list
       /\ storage p' = Text (PArray (map renormalized kept))
       /\ ~ In id (map Id (map renormalized kept))
       /\ (forall key, key <> id ->
             (In key (map Id (map renormalized kept)) <-> In key (map Id items)))
       /\ ((forall item, In item kept -> Quantity item <> JNum (Z2Qc 0)) ->
           storage p' = Text (PArray kept)))
  /\ (forall (p : page) (a a' b : Z),
        storage p = Text (PArray [line "A" a 2; line "A" a' 3; line "B" b 1]) ->
        (Z.abs b <= safe_bound)%Z ->
        exists p',
          remove "A" p = Return tt p'
          /\ storage p' = Text (PArray [line "B" b 1])
          /\ cart_total p' = Fin (Z2Qc b * Z2Qc 1)).
Proof.
  split.
  - intros p items id Hs _ kept.
    destruct (remove_stored_cart p items id Hs) as (Hrun & Hw & Hst & _).
    fold kept in Hrun, Hw, Hst.
    assert (Hnd : NoDup (map Id kept))
      by apply filter_Ids_NoDup, combine_NoDup.
    rewrite (combine_distinct kept Hnd) in Hw, Hst.
    exists (refreshed kept p). repeat split; try assumption.
    + rewrite Ids_renormalized. unfold kept. rewrite in_filter_other_ids. tauto.
    + rewrite Ids_renormalized. unfold kept.
      rewrite in_filter_other_ids, combine_Ids. tauto.
    + rewrite Ids_renormalized. unfold kept.
      rewrite in_filter_other_ids, combine_Ids. tauto.
    + intros Hnz. rewrite Hst. do 2 f_equal.
      rewrite <- (combine_distinct kept Hnd).
      apply kept_unchanged_by_reload; [assumption|].
      intros item Hin. exists (group_quantity (Id item) items).
      assert (Hin' : In item (combineDuplicateItems items)).
      { unfold kept in Hin. now apply filter_In in Hin. }
      pose proof (combine_Quantity items item Hin') as Hq.
      split; [assumption|].
      intros Hz. apply (Hnz item Hin). now rewrite Hq, Hz.
  - intros p a a' b Hs _.
    destruct (remove_stored_cart p _ "A"%string Hs) as (Hrun & _ & Hst & Ht).
    eexists. split; [exact Hrun|]. split.
    + rewrite Hst. reflexivity.
    + rewrite Ht. unfold finalTotal. cbn. f_equal. apply Qcplus_0_l.
Qed.

Lemma C5_remove_witness :
  let items := [line "A" 10 2; line "A" 10 3; line "B" 5 1] in
  let p := page_with (Text (PArray items)) in
  exact_cart items
  /\ (exists p',
        remove "A" p = Return tt p'
        /\ writes p' = [[line "B" 5 1]; [line "B" 5 1]]
        /\ storage p' = Text (PArray [line "B" 5 1])
        /\ ~ In "A"%string (map Id [line "B" 5 1])
        /\ (forall key, key <> "A"%string ->
              (In key (map Id [line "B" 5 1]) <-> In key (map Id items)))
        /\ ((forall item, In item [line "B" 5 1] -> Quantity item <> JNum (Z2Qc 0)) ->
            storage p' = Text (PArray [line "B" 5 1])))
  /\ (exists p',
        remove "A" p = Return tt p'
        /\ storage p' = Text (PArray [line "B" 5 1])
        /\ cart_total p' = Fin (Z2Qc 5 * Z2Qc 1)).
Proof.
  assert (Hx : exact_cart [line "A" 10 2; line "A" 10 3; line "B" 5 1])
    by exact_range.
  split; [exact Hx|]. split.
  - exact (proj1 C5_remove_persists_the_filtered_cart
                 (page_with (Text (PArray [line "A" 10 2; line "A" 10 3; line "B" 5 1])))
                 [line "A" 10 2; line "A" 10 3; line "B" 5 1] "A"%string eq_refl Hx).
  - apply (proj2 C5_remove_persists_the_filtered_cart
                 (page_with (Text (PArray [line "A" 10 2; line "A" 10 3; line "B" 5 1])))
                 10%Z 10%Z 5%Z eq_refl).
    vm_compute. discriminate.
Defined.

(** C10, as stated, fails: the store does not end with the quantities
    summed.  The reload that follows the write normalizes once more and
    reads a sum of zero as 1: from the cart
    [[{Id:"A",Quantity:3},{Id:"A",Quantity:-3}]], remove("C") writes the
    normalized form [[{Id:"A",Quantity:0}]] and leaves
    [[{Id:"A",Quantity:1}]] in the store. *)
Lemma C10_zero_sum_is_stored_as_one :
  let items := [line "A" 10 3; line "A" 10 (-3)] in
  let p := page_with (Text (PArray items)) in
  ~ In "C"%string (map Id items)
  /\ combineDuplicateItems items = [line "A" 10 0]
  /\ exists p',
       remove "C" p = Return tt p'
       /\ storage p' = Text (PArray [line "A" 10 1])
       /\ storage p' <> Text (PArray (combineDuplicateItems items)).
Proof.
  split; [|split; [reflexivity|]].
  - simpl. intros [H|[H|[]]]; discriminate H.
  - eexists. split; [|split].
    + rewrite remove_run, removeFromCart_run. reflexivity.
    + now destruct (refreshed_page
                      (filter (fun item => negb (Id item =? "C")%string)
                         (combineDuplicateItems [line "A" 10 3; line "A" 10 (-3)]))
                      (page_with (Text (PArray [line "A" 10 3; line "A" 10 (-3)]))))
        as (-> & _).
    + destruct (refreshed_page
                  (filter (fun item => negb (Id item =? "C")%string)
                     (combineDuplicateItems [line "A" 10 3; line "A" 10 (-3)]))
                  (page_with (Text (PArray [line "A" 10 3; line "A" 10 (-3)]))))
        as (-> & _).
      vm_compute. intros H. inversion H.
Qed.

(** C10, amended: for every persisted cart whose quantities are whole
    numbers the sum of whose magnitudes is at most 2^53 (so that the code
    adds them without rounding) and every id that matches no line item,
    remove(id) nevertheless rewrites the persisted store: it writes the
    normalized form of the cart, and the reload writes that form normalized
    again.  The store ends with one entry per distinct Id of the cart, in
    which the quantity is the sum of the counted quantities of the entries
    with that Id, or 1 when that sum is zero; it is the normalized form of
    the cart when no sum is zero.  The ids of the cart are unchanged, and
    the stored value can differ from the one before. *)
Theorem C10_remove_of_unknown_id_rewrites_the_store :
  (forall (p : page) (items : list CartLineItem) (id : string),
     storage p = Text (PArray items) ->
     ~ In id (map Id items) ->
     exact_cart items ->
     exists p' cart,
       remove id p = Return tt p'
       /\ writes p' = (writes p ++ [combineDuplicateItems items; cart])%list
       /\ storage p' = Text (PArray cart)
       /\ cart = map renormalized (combineDuplicateItems items)
       /\ NoDup (map Id cart)
       /\ (forall key, In key (map Id cart) <-> In key (map Id items))
       /\ (forall item, In item cart ->
             Quantity item = JNum (or_one (Fin (group_quantity (Id item) items))))
       /\ ((forall key, In key (map Id items) ->
                        group_quantity key items <> Z2Qc 0) ->
           cart = combineDuplicateItems items))
  /\ (exists (p p' : page) (items : list CartLineItem) (id : string),
        storage p = Text (PArray items)
        /\ ~ In id (map Id items)
        /\ exact_cart items
        /\ remove id p = Return tt p'
        /\ storage p' <> storage p).
Proof.
  split.
  - intros p items id Hs Hid _.
    destruct (remove_stored_cart p items id Hs) as (Hrun & Hw & Hst & _).
    rewrite filter_other_ids in Hrun, Hw, Hst
      by (now rewrite combine_Ids).
    rewrite (combine_distinct _ (combine_NoDup items)) in Hw, Hst.
    eexists. exists (map renormalized (combineDuplicateItems items)).
    split; [exact Hrun|]. repeat split; try assumption.
    + rewrite Ids_renormalized. apply combine_NoDup.
    + now rewrite Ids_renormalized, combine_Ids.
    + now rewrite Ids_renormalized, combine_Ids.
    + intros item Hin. apply in_map_iff in Hin.
      destruct Hin as [it [<- Hin]].
      unfold renormalized, counted. cbn [Quantity with_Quantity Id].
      now rewrite (combine_Quantity items it Hin).
    + intros Hnz. rewrite <- (map_id (combineDuplicateItems items)) at 2.
      apply map_ext_in. intros item Hin.
      apply renormalized_fixed with (q := group_quantity (Id item) items).
      * now apply combine_Quantity.
      * apply Hnz. apply combine_Ids. now apply in_map.
  - exists (page_with (Text (PArray [line "A" 10 1; line "A" 10 1]))).
    eexists. exists [line "A" 10 1; line "A" 10 1], "B"%string.
    split; [reflexivity|]. split; [|split; [|split]].
    + simpl. intuition discriminate.
    + exact_range.
    + rewrite remove_run, removeFromCart_run. reflexivity.
    + destruct (refreshed_page
                  (filter (fun item => negb (Id item =? "B")%string)
                     (combineDuplicateItems [line "A" 10 1; line "A" 10 1]))
                  (page_with (Text (PArray [line "A" 10 1; line "A" 10 1]))))
        as (-> & _).
      vm_compute. intros H. inversion H.
Qed.

Lemma C10_remove_of_unknown_id_witness :
  let items := [line "A" 10 1; line "A" 10 1; line "B" 5 2] in
  let p := page_with (Text (PArray items)) in
  ~ In "C"%string (map Id items)
  /\ exact_cart items
  /\ exists p' cart,
       remove "C" p = Return tt p'
       /\ writes p' = (writes p ++ [combineDuplicateItems items; cart])%list
       /\ storage p' = Text (PArray cart)
       /\ cart = map renormalized (combineDuplicateItems items)
       /\ NoDup (map Id cart)
       /\ (forall key, In key (map Id cart) <-> In key (map Id items))
       /\ (forall item, In item cart ->
             Quantity item = JNum (or_one (Fin (group_quantity (Id item) items))))
       /\ ((forall key, In key (map Id items) ->
                        group_quantity key items <> Z2Qc 0) ->
           cart = combineDuplicateItems items).
Proof.
  assert (H : ~ In "C"%string (map Id [line "A" 10 1; line "A" 10 1; line "B" 5 2])).
  { simpl. intros [H|[H|[H|[]]]]; discriminate H. }
  assert (Hx : exact_cart [line "A" 10 1; line "A" 10 1; line "B" 5 2])
    by exact_range.
  split; [exact H|]. split; [exact Hx|].
  exact (proj1 C10_remove_of_unknown_id_rewrites_the_store
               (page_with (Text (PArray [line "A" 10 1; line "A" 10 1; line "B" 5 2])))
               [line "A" 10 1; line "A" 10 1; line "B" 5 2] "C"%string eq_refl H Hx).
Defined.

End RemoveClaims.

(** ** Setting a quantity *)

Section SetQuantityClaims.

Local Open Scope Qc_scope.

Lemma find_known_id (id : string) (items : list CartLineItem) :
  In id (map Id items) ->
  exists item, find (fun c => (Id c =? id)%string) items = Some item.
Proof.
  induction items as [|item items IH]; simpl; intros H; [contradiction|].
  destruct (String.eqb_spec (Id item) id) as [Heq|Hne].
  - now exists item.
  - apply IH. tauto.
Qed.

Lemma find_unknown_id (id : string) (items : list CartLineItem) :
  ~ In id (map Id items) ->
  find (fun c => (Id c =? id)%string) items = None.
Proof.
  induction items as [|item items IH]; simpl; intros H; [reflexivity|].
  destruct (String.eqb_spec (Id item) id) as [Heq|Hne].
  - exfalso. apply H. now left.
  - apply IH. tauto.
Qed.

Lemma Ids_assign_Quantity (id : string) (q : Qc) (items : list CartLineItem) :
  map Id (assign_Quantity id q items) = map Id items.
Proof.
  induction items as [|item items IH]; simpl; [reflexivity|].
  destruct (Id item =? id)%string; simpl; [reflexivity | now rewrite IH].
Qed.

Lemma find_assign_Quantity (id : string) (q : Qc) (items : list CartLineItem) :
  find (fun c => (Id c =? id)%string) (assign_Quantity id q items)
  = option_map (fun item => with_Quantity item q)
               (find (fun c => (Id c =? id)%string) items).
Proof.
  induction items as [|item items IH]; simpl; [reflexivity|].
  destruct (Id item =? id)%string eqn:E; simpl.
  - now rewrite E.
  - now rewrite E.
Qed.

Lemma find_renormalized (id : string) (items : list CartLineItem) :
  find (fun c => (Id c =? id)%string) (map renormalized items)
  = option_map renormalized (find (fun c => (Id c =? id)%string) items).
Proof.
  induction items as [|item items IH]; simpl; [reflexivity|].
  destruct (Id item =? id)%string; [reflexivity | apply IH].
Qed.

(** The quantity the listener computes is the clamped quantity of the
    specification. *)
Lemma listener_quantity (rawValue : string) :
  Math_max (Z2Qc 1) (or_one (parseInt rawValue)) = Z2Qc (clamped_quantity rawValue).
Proof.
  unfold parseInt, clamped_quantity.
  destruct (parseInt_Z rawValue) as [n|].
  - rewrite or_one_Z2Qc, Math_max_Z2Qc. f_equal.
    destruct (Z.eqb_spec n 0); lia.
  - change (or_one NaN) with (Z2Qc 1). now rewrite Math_max_Z2Qc.
Qed.

Lemma clamped_quantity_positive (rawValue : string) :
  (1 <= clamped_quantity rawValue)%Z.
Proof. unfold clamped_quantity. destruct (parseInt_Z rawValue); lia. Qed.

(** C6, as stated, fails: the input is not coerced as a number but read
    by [parseInt], which takes the integer the text starts with and ignores
    what follows.  ["12abc"] is not a number and stores 12; ["5e-1"] is the
    number one half, below 1, and stores 5. *)
Lemma C6_leading_integer_is_what_counts :
  let p := page_with (Text (PArray [line "A" 10 2; line "B" 5 4])) in
  (StringToNumber "12abc" = NaN
   /\ exists p',
        set_quantity "B" "12abc" p = Return tt p'
        /\ storage p' = Text (PArray [line "A" 10 2; line "B" 5 12]))
  /\ (StringToNumber "5e-1" = Fin (Z2Qc 1 / Z2Qc 2)
      /\ (Z2Qc 1 / Z2Qc 2 < Z2Qc 1)
      /\ exists p',
           set_quantity "B" "5e-1" p = Return tt p'
           /\ storage p' = Text (PArray [line "A" 10 2; line "B" 5 5])).
Proof.
  split; [split; [reflexivity|] | split; [|split; [reflexivity|]]].
  - eexists. split.
    + rewrite set_quantity_run. reflexivity.
    + now destruct (refreshed_page
                      (assign_Quantity "B"
                         (Math_max (Z2Qc 1) (or_one (parseInt "12abc")))
                         (combineDuplicateItems [line "A" 10 2; line "B" 5 4]))
                      (page_with (Text (PArray [line "A" 10 2; line "B" 5 4]))))
        as (-> & _).
  - vm_compute. first [reflexivity | f_equal; apply Qc_is_canon; reflexivity].
  - eexists. split.
    + rewrite set_quantity_run. reflexivity.
    + now destruct (refreshed_page
                      (assign_Quantity "B"
                         (Math_max (Z2Qc 1) (or_one (parseInt "5e-1")))
                         (combineDuplicateItems [line "A" 10 2; line "B" 5 4]))
                      (page_with (Text (PArray [line "A" 10 2; line "B" 5 4]))))
        as (-> & _).
Qed.

(** C6, amended: for every existing item id and every raw input value,
    set-quantity(id, rawValue) stores for that item the integer the raw
    value starts with (after leading white space: an optional sign, then
    the longest run of decimal digits; what follows is ignored), clamped to
    a minimum of 1, as long as that integer is at most 2^53 (beyond it the
    code rounds).  An input that starts with no integer or with one below 1
    (["abc"], ["-3"]) stores exactly 1, never zero or a negative number;
    ["7"] stores 7, ["2.9"] stores 2 and ["12abc"] stores 12. *)
Theorem C6_set_quantity_stores_the_clamped_integer
    (p : page) (items : list CartLineItem) (id rawValue : string) :
  storage p = Text (PArray items) ->
  In id (map Id items) ->
  exact_input rawValue ->
  exists p' cart item,
    set_quantity id rawValue p = Return tt p'
    /\ storage p' = Text (PArray cart)
    /\ NoDup (map Id cart)
    /\ find (fun c => (Id c =? id)%string) cart = Some item
    /\ Quantity item = JNum (Z2Qc (clamped_quantity rawValue))
    /\ (1 <= clamped_quantity rawValue <= safe_bound)%Z
    /\ (forall n, parseInt_Z rawValue = Some n ->
          clamped_quantity rawValue = Z.max 1 n)
    /\ (parseInt_Z rawValue = None
        \/ (exists n, parseInt_Z rawValue = Some n /\ (n < 1)%Z) ->
        Quantity item = JNum (Z2Qc 1))
    /\ clamped_quantity "-3" = 1%Z
    /\ clamped_quantity "abc" = 1%Z
    /\ clamped_quantity "7" = 7%Z
    /\ clamped_quantity "2.9" = 2%Z
    /\ clamped_quantity "12abc" = 12%Z.
Proof.
  intros Hs Hid Hx.
  assert (Hid' : In id (map Id (combineDuplicateItems items)))
    by now apply combine_Ids.
  destruct (find_known_id id _ Hid') as [found Hfound].
  set (q := Math_max (Z2Qc 1) (or_one (parseInt rawValue))).
  set (updated := assign_Quantity id q (combineDuplicateItems items)).
  assert (Hnd : NoDup (map Id updated)).
  { unfold updated. rewrite Ids_assign_Quantity. apply combine_NoDup. }
  exists (refreshed updated p), (combineDuplicateItems updated),
         (with_Quantity found (Z2Qc (clamped_quantity rawValue))).
  assert (Hq : Quantity (with_Quantity found (Z2Qc (clamped_quantity rawValue)))
               = JNum (Z2Qc (clamped_quantity rawValue))) by reflexivity.
  repeat split.
  - rewrite set_quantity_run, Hs. simpl stored_cart. cbv beta iota.
    now rewrite Hfound.
  - now destruct (refreshed_page updated p) as (-> & _).
  - apply combine_NoDup.
  - rewrite combine_distinct by assumption.
    rewrite find_renormalized. unfold updated.
    rewrite find_assign_Quantity, Hfound. simpl. f_equal.
    unfold q. rewrite listener_quantity.
    apply renormalized_fixed with (q := Z2Qc (clamped_quantity rawValue));
      [reflexivity|].
    intros H. apply Z2Qc_inj in H.
    pose proof (clamped_quantity_positive rawValue). lia.
  - apply clamped_quantity_positive.
  - exact Hx.
  - intros n Hn. unfold clamped_quantity. now rewrite Hn.
  - intros H. rewrite Hq. do 2 f_equal. unfold clamped_quantity.
    destruct H as [->|[n [-> Hn]]]; [reflexivity | lia].
Qed.

Lemma C6_set_quantity_witness :
  let p := page_with (Text (PArray [line "A" 10 2; line "B" 5 4])) in
  (exists p' cart item,
     set_quantity "B" "-3" p = Return tt p'
     /\ storage p' = Text (PArray cart)
     /\ NoDup (map Id cart)
     /\ find (fun c => (Id c =? "B")%string) cart = Some item
     /\ Quantity item = JNum (Z2Qc 1))
  /\ (exists p' cart item,
        set_quantity "B" " 42px" p = Return tt p'
        /\ storage p' = Text (PArray cart)
        /\ NoDup (map Id cart)
        /\ find (fun c => (Id c =? "B")%string) cart = Some item
        /\ Quantity item = JNum (Z2Qc 42)).
Proof.
  assert (Hid : In "B"%string (map Id [line "A" 10 2; line "B" 5 4]))
    by (right; left; reflexivity).
  split.
  - destruct (C6_set_quantity_stores_the_clamped_integer
                (page_with (Text (PArray [line "A" 10 2; line "B" 5 4])))
                [line "A" 10 2; line "B" 5 4] "B" "-3" eq_refl Hid)
      as (p' & cart & item & H1 & H2 & H3 & H4 & H5 & _).
    + vm_compute. discriminate.
    + exists p', cart, item. repeat split; assumption.
  - destruct (C6_set_quantity_stores_the_clamped_integer
                (page_with (Text (PArray [line "A" 10 2; line "B" 5 4])))
                [line "A" 10 2; line "B" 5 4] "B" " 42px" eq_refl Hid)
      as (p' & cart & item & H1 & H2 & H3 & H4 & H5 & _).
    + vm_compute. discriminate.
    + exists p', cart, item. repeat split; assumption.
Defined.

(** C7: for every persisted cart and every id that matches no line item of
    the normalized cart, set-quantity(id, rawValue) is a silent no-op: it
    returns without writing to the store, and leaves the page, the
    persisted cart included, as it was. *)
Theorem C7_set_quantity_of_unknown_id_is_a_no_op
    (p : page) (items : list CartLineItem) (id rawValue : string) :
  storage p = Text (PArray items) ->
  ~ In id (map Id (combineDuplicateItems items)) ->
  set_quantity id rawValue p = Return tt p.
Proof.
  intros Hs Hid. rewrite set_quantity_run, Hs. simpl stored_cart. cbv beta iota.
  now rewrite find_unknown_id.
Qed.

Lemma C7_set_quantity_of_unknown_id_witness :
  let items := [line "A" 10 2; line "A" 10 3; line "B" 5 1] in
  let p := page_with (Text (PArray items)) in
  ~ In "C"%string (map Id (combineDuplicateItems items))
  /\ set_quantity "C" "7" p = Return tt p
  /\ writes p = []
  /\ storage p = Text (PArray items).
Proof.
  assert (H : ~ In "C"%string
                (map Id (combineDuplicateItems
                           [line "A" 10 2; line "A" 10 3; line "B" 5 1]))).
  { simpl. intros [H|[H|[]]]; discriminate H. }
  split; [exact H|].
  split; [|split; reflexivity].
  exact (C7_set_quantity_of_unknown_id_is_a_no_op
           (page_with (Text (PArray [line "A" 10 2; line "A" 10 3; line "B" 5 1])))
           [line "A" 10 2; line "A" 10 3; line "B" 5 1] "C" "7" eq_refl H).
Defined.

End SetQuantityClaims.

(** ** The total and the summary region *)

Section TotalClaims.

Local Open Scope Qc_scope.


Lemma is_strictly_zero_spec (n : number) :
  is_strictly_zero n = true <-> n = Fin (Z2Qc 0).
Proof.
  destruct n as [q|]; simpl.
  - rewrite is_zero_spec. split; [now intros -> | congruence].
  - split; discriminate.
Qed.




(** C9: after every evaluation of the totalizer the cart summary region is
    hidden if and only if the computed total equals exactly 0; for any
    other total it is shown. *)
Theorem C9_summary_hidden_iff_total_is_zero (p p' : page) (t : number) :
  getCartTotal p = Return t p' ->
  cart_total p' = t
  /\ (cart_footer_hide p' = true <-> t = Fin (Z2Qc 0))
  /\ (cart_footer_hide p' = false <-> t <> Fin (Z2Qc 0)).
Proof.
  rewrite getCartTotal_run.
  destruct (stored_cart (storage p)) as [e|items]; [discriminate|].
  intros H. injection H as <- <-. simpl.
  split; [reflexivity|]. split.
  - apply is_strictly_zero_spec.
  - rewrite <- is_strictly_zero_spec.
    destruct (is_strictly_zero (finalTotal items)); split; congruence.
Qed.

Lemma C9_summary_witness :
  let shown := page_with (Text (PArray [line "A" 10 2; line "B" 5 1])) in
  let empty := page_with (Text (PArray [])) in
  (getCartTotal empty = Return (Fin (Z2Qc 0)) (totalled [] empty)
   /\ cart_footer_hide (totalled [] empty) = true)
  /\ (getCartTotal shown
      = Return (Fin (Z2Qc 25)) (totalled [line "A" 10 2; line "B" 5 1] shown)
      /\ cart_footer_hide (totalled [line "A" 10 2; line "B" 5 1] shown) = false).
Proof.
  split; (split; [reflexivity|]).
  - apply (C9_summary_hidden_iff_total_is_zero
             (page_with (Text (PArray []))) _ (Fin (Z2Qc 0)) eq_refl).
    reflexivity.
  - apply (C9_summary_hidden_iff_total_is_zero
             (page_with (Text (PArray [line "A" 10 2; line "B" 5 1]))) _
             (Fin (Z2Qc 25)) eq_refl).
    intros H. assert (E : Z2Qc 25 = Z2Qc 0) by congruence.
    apply Z2Qc_inj in E. discriminate E.
Defined.

End TotalClaims.


(** ** Further properties of the normalizer and of the count badge *)

Section FurtherProperties.

Local Open Scope Qc_scope.

Lemma first_under_visit (key : string) (byId : Map) (item : CartLineItem) :
  first_under key (visit byId item)
  = match first_under key byId with
    | Some f => Some f
    | None => if (Id item =? key)%string then Some item else None
    end.
Proof.
  unfold first_under, visit.
  destruct (Map_get (Id item) byId) eqn:E.
  - rewrite Map_get_add_Quantity.
    destruct (Map_get key byId) eqn:K; simpl.
    + now destruct (Id item =? key)%string.
    + destruct (String.eqb_spec (Id item) key) as [Heq|Hne]; [|reflexivity].
      rewrite Heq in E. congruence.
  - rewrite Map_get_snoc.
    destruct (Map_get key byId); simpl; [reflexivity|].
    now destruct (Id item =? key)%string.
Qed.

Lemma first_under_fold_visit (key : string) (items : list CartLineItem) (byId : Map) :
  first_under key (fold_left visit items byId)
  = match first_under key byId with
    | Some f => Some f
    | None => find (fun c => (Id c =? key)%string) items
    end.
Proof.
  revert byId. induction items as [|item items IH]; intros byId; simpl.
  - now destruct (first_under key byId).
  - rewrite IH, first_under_visit.
    destruct (first_under key byId); [reflexivity|].
    now destruct (Id item =? key)%string.
Qed.

(** X1: for each Id, the output entry is made from the first input item
    with that Id: it has the price and the other properties of that item,
    whatever the later items with the same Id hold.  When the quantities are
    whole numbers the sum of whose magnitudes is at most 2^53, its quantity
    is the sum of the quantities of all the input items with that Id. *)
Theorem normalizer_keeps_the_first_seen_item
    (items : list CartLineItem) (item : CartLineItem) :
  In item (combineDuplicateItems items) ->
  exists first,
    find (fun c => (Id c =? Id item)%string) items = Some first
    /\ Id item = Id first
    /\ FinalPrice item = FinalPrice first
    /\ Props item = Props first
    /\ (exact_cart items ->
        item = with_Quantity first (group_quantity (Id item) items)).
Proof.
  intros Hin.
  pose proof (combine_Quantity items item Hin) as Hq.
  unfold combineDuplicateItems in Hin.
  destruct (fold_visit_invariant items []) as [Hnd Hwk];
    [constructor | constructor |].
  apply in_map_iff in Hin. destruct Hin as [[k e] [Heq Hin]].
  pose proof (Map_get_In k e _ Hnd Hin) as Hget.
  unfold well_keyed in Hwk. rewrite Forall_forall in Hwk.
  specialize (Hwk _ Hin). simpl in Hwk, Heq.
  assert (Hid : Id item = k) by (now rewrite <- Heq).
  exists (first_seen e). split; [|split; [|split; [|split]]].
  - pose proof (first_under_fold_visit k items []) as H.
    unfold first_under in H. rewrite Hget in H. simpl in H.
    now rewrite Hid.
  - now rewrite <- Heq.
  - now rewrite <- Heq.
  - now rewrite <- Heq.
  - intros _. rewrite <- Heq in Hq |- *. unfold entry_object, with_Quantity in *.
    simpl in *. now injection Hq as ->.
Qed.

Lemma normalizer_keeps_the_first_seen_witness :
  let items := [ line "A" 10 2;
                 {| Id := "A"; FinalPrice := JNum (Z2Qc 12);
                    Quantity := JNum (Z2Qc 3); Props := [("Name", "tent")] |};
                 line "B" 5 1 ] in
  exact_cart items
  /\ exists first,
       find (fun c => (Id c =? "A")%string) items = Some first
       /\ Id (line "A" 10 5) = Id first
       /\ FinalPrice (line "A" 10 5) = FinalPrice first
       /\ Props (line "A" 10 5) = Props first
       /\ (exact_cart items ->
           line "A" 10 5 = with_Quantity first (group_quantity "A" items)).
Proof.
  split; [exact_range|].
  apply (normalizer_keeps_the_first_seen_item
           [ line "A" 10 2;
             {| Id := "A"; FinalPrice := JNum (Z2Qc 12);
                Quantity := JNum (Z2Qc 3); Props := [("Name", "tent")] |};
             line "B" 5 1 ] (line "A" 10 5)).
  left. reflexivity.
Defined.

Lemma totalQty_sum (items : list CartLineItem) (acc : Qc) :
  fold_left (fun total item => total + counted item) items acc
  = acc + fold_right Qcplus (Z2Qc 0) (map counted items).
Proof.
  revert acc. induction items as [|item items IH]; intros acc; simpl.
  - now rewrite Qcplus_0_r.
  - now rewrite IH, Qcplus_assoc.
Qed.

(** X6: the count badge, when the header is in the page and the stored
    quantities are whole numbers the sum of whose magnitudes is at most
    2^53, is hidden if and only if the counted quantities of the stored
    items sum to zero, and shows that sum otherwise; the storage is not
    written. *)
Theorem count_badge_shows_the_sum_of_quantities
    (p : page) (items : list CartLineItem) :
  storage p = Text (PArray items) ->
  has_badge p = true ->
  exact_cart items ->
  let sum := fold_right Qcplus (Z2Qc 0) (map counted items) in
  exists p',
    countCartItems p = Return tt p'
    /\ (badge_hide p' = true <-> sum = Z2Qc 0)
    /\ (sum <> Z2Qc 0 -> cart_count p' = sum)
    /\ storage p' = storage p
    /\ writes p' = writes p.
Proof.
  intros Hs Hb _ sum. exists (badged items p).
  assert (Hsum : totalQty items = sum).
  { unfold totalQty, sum. rewrite totalQty_sum. apply Qcplus_0_l. }
  split; [now apply countCartItems_array|].
  unfold badged. rewrite Hb. simpl. rewrite Hsum. repeat split.
  - apply is_zero_spec.
  - apply is_zero_spec.
  - intros Hnz. destruct (is_zero sum) eqn:E; [|reflexivity].
    now apply is_zero_spec in E.
Qed.

Lemma count_badge_witness :
  let items := [line "A" 10 2; line "B" 5 4; line "A" 10 1] in
  let p := page_with (Text (PArray items)) in
  exact_cart items
  /\ fold_right Qcplus (Z2Qc 0) (map counted items) = Z2Qc 7
  /\ exists p',
       countCartItems p = Return tt p'
       /\ (badge_hide p' = true
           <-> fold_right Qcplus (Z2Qc 0) (map counted items) = Z2Qc 0)
       /\ (fold_right Qcplus (Z2Qc 0) (map counted items) <> Z2Qc 0 ->
           cart_count p' = fold_right Qcplus (Z2Qc 0) (map counted items))
       /\ storage p' = storage p
       /\ writes p' = writes p.
Proof.
  assert (Hx : exact_cart [line "A" 10 2; line "B" 5 4; line "A" 10 1])
    by exact_range.
  split; [exact Hx|]. split; [reflexivity|].
  exact (count_badge_shows_the_sum_of_quantities
           (page_with (Text (PArray [line "A" 10 2; line "B" 5 4; line "A" 10 1])))
           [line "A" 10 2; line "B" 5 4; line "A" 10 1] eq_refl eq_refl Hx).
Defined.

End FurtherProperties.

(** ** The normalizer: order, input order, repeated passes *)

Section NormalizerShape.

Local Open Scope Qc_scope.

Lemma keys_fold_add_key (items : list CartLineItem) (byId : Map) :
  keys (fold_left visit items byId)
  = fold_left add_key (map Id items) (keys byId).
Proof.
  revert byId. induction items as [|item items IH]; intros byId; simpl.
  - reflexivity.
  - rewrite IH, keys_visit. reflexivity.
Qed.

Lemma filter_fresh_remove_seen (seen : list string) (id : string) (ids : list string) :
  In id seen ->
  filter (fun k => if in_dec string_dec k seen then false else true)
         (List.remove string_dec id ids)
  = filter (fun k => if in_dec string_dec k seen then false else true) ids.
Proof.
  intros Hin. induction ids as [|k ids IH]; simpl; [reflexivity|].
  destruct (string_dec id k) as [<-|Hne]; simpl.
  - destruct (in_dec string_dec id seen); [assumption | contradiction].
  - now rewrite IH.
Qed.

Lemma filter_fresh_snoc (seen : list string) (id : string) (ids : list string) :
  filter (fun k => if in_dec string_dec k (seen ++ [id])%list then false else true) ids
  = filter (fun k => if in_dec string_dec k seen then false else true)
           (List.remove string_dec id ids).
Proof.
  induction ids as [|k ids IH]; simpl; [reflexivity|].
  destruct (string_dec id k) as [<-|Hne].
  - destruct (in_dec string_dec id (seen ++ [id])%list) as [|Hn]; [assumption|].
    exfalso. apply Hn. rewrite in_app_iff. simpl. tauto.
  - simpl. rewrite IH.
    destruct (in_dec string_dec k (seen ++ [id])%list) as [Hin|Hn];
      destruct (in_dec string_dec k seen) as [Hin'|Hn']; try reflexivity.
    + rewrite in_app_iff in Hin. simpl in Hin. intuition congruence.
    + exfalso. apply Hn. rewrite in_app_iff. tauto.
Qed.

Lemma fold_add_key (ids seen : list string) :
  fold_left add_key ids seen
  = (seen ++ filter (fun k => if in_dec string_dec k seen then false else true)
                    (first_occurrences ids))%list.
Proof.
  revert seen. induction ids as [|id ids IH]; intros seen; simpl.
  - now rewrite app_nil_r.
  - rewrite IH. unfold add_key.
    destruct (in_dec string_dec id seen) as [Hin|Hn].
    + now rewrite filter_fresh_remove_seen.
    + rewrite <- app_assoc. simpl. now rewrite filter_fresh_snoc.
Qed.

(** X2: the ids of the normalizer's output are the distinct ids of its
    input, in the order of their first occurrence. *)
Theorem normalizer_output_follows_first_occurrences (items : list CartLineItem) :
  map Id (combineDuplicateItems items) = first_occurrences (map Id items).
Proof.
  unfold combineDuplicateItems.
  destruct (fold_visit_invariant items []) as [_ Hwk];
    [constructor | constructor |].
  rewrite Ids_of_objects by assumption.
  rewrite keys_fold_add_key, fold_add_key. simpl.
  induction (first_occurrences (map Id items)) as [|k ks IH]; simpl;
    [reflexivity | now rewrite IH].
Qed.

Lemma group_quantity_Permutation (key : string) (items items' : list CartLineItem) :
  Permutation items items' ->
  group_quantity key items = group_quantity key items'.
Proof.
  induction 1 as [| item l l' _ IH | a b l | l l' l'' _ IH1 _ IH2].
  - reflexivity.
  - now rewrite !group_quantity_cons, IH.
  - rewrite !group_quantity_cons, !Qcplus_assoc. f_equal. apply Qcplus_comm.
  - now rewrite IH1.
Qed.

(** X3: the merged quantities do not depend on the order of the input, as
    long as the quantities are whole numbers the sum of whose magnitudes is
    at most 2^53 (beyond that the code rounds, and the order of the
    additions shows): when two such inputs are permutations of each other,
    every entry of one output has an entry with the same Id and the same
    Quantity in the other. *)
Theorem normalizer_quantities_ignore_input_order
    (items items' : list CartLineItem) (item : CartLineItem) :
  Permutation items items' ->
  exact_cart items ->
  In item (combineDuplicateItems items) ->
  exists item',
    In item' (combineDuplicateItems items')
    /\ Id item' = Id item
    /\ Quantity item' = Quantity item.
Proof.
  intros Hperm _ Hin.
  assert (Hid : In (Id item) (map Id (combineDuplicateItems items'))).
  { apply combine_Ids.
    apply Permutation_in with (l := map Id items);
      [now apply Permutation_map|].
    apply combine_Ids. now apply in_map. }
  apply in_map_iff in Hid. destruct Hid as [item' [Heq Hin']].
  exists item'. repeat split; try assumption.
  rewrite (combine_Quantity items item Hin), (combine_Quantity items' item' Hin'), Heq.
  f_equal. symmetry. now apply group_quantity_Permutation.
Qed.

Lemma normalizer_quantities_ignore_input_order_witness :
  exists item',
    In item' (combineDuplicateItems [line "B" 5 1; line "A" 12 3; line "A" 10 2])
    /\ Id item' = Id (line "A" 10 5)
    /\ Quantity item' = Quantity (line "A" 10 5).
Proof.
  apply (normalizer_quantities_ignore_input_order
           [line "A" 10 2; line "A" 12 3; line "B" 5 1]
           [line "B" 5 1; line "A" 12 3; line "A" 10 2]).
  - apply Permutation_trans with (l' := [line "A" 12 3; line "A" 10 2; line "B" 5 1]).
    + apply perm_swap.
    + apply Permutation_trans with (l' := [line "A" 12 3; line "B" 5 1; line "A" 10 2]).
      * apply perm_skip, perm_swap.
      * apply perm_swap.
  - exact_range.
  - left. reflexivity.
Defined.

Lemma counted_renormalized (item : CartLineItem) :
  counted (renormalized item) = counted item.
Proof.
  unfold renormalized, with_Quantity. unfold counted at 1. simpl.
  apply or_one_nonzero, or_one_not_zero.
Qed.

Lemma renormalized_twice (item : CartLineItem) :
  renormalized (renormalized item) = renormalized item.
Proof.
  unfold renormalized at 1. rewrite counted_renormalized. reflexivity.
Qed.

Lemma map_renormalized_twice (items : list CartLineItem) :
  map renormalized (map renormalized items) = map renormalized items.
Proof.
  rewrite map_map. apply map_ext. apply renormalized_twice.
Qed.

(** X4: the normalizer reaches a fixed point after two passes: a third pass
    changes nothing, and after two passes no quantity is zero. *)
Theorem normalizer_is_stable_after_two_passes (items : list CartLineItem) :
  combineDuplicateItems (combineDuplicateItems (combineDuplicateItems items))
  = combineDuplicateItems (combineDuplicateItems items)
  /\ Forall (fun item => exists q, Quantity item = JNum q /\ q <> Z2Qc 0)
            (combineDuplicateItems (combineDuplicateItems items)).
Proof.
  split.
  - rewrite (combine_twice (combineDuplicateItems items)).
    rewrite (combine_twice items). apply map_renormalized_twice.
  - rewrite combine_twice. apply Forall_forall. intros item Hin.
    apply in_map_iff in Hin. destruct Hin as [item0 [<- _]].
    exists (counted item0). split; [reflexivity | apply or_one_not_zero].
Qed.

Lemma counted_positive_integer (item : CartLineItem) :
  positive_integer (Quantity item) ->
  exists n : Z, (1 <= n)%Z /\ Quantity item = JNum (Z2Qc n) /\ counted item = Z2Qc n.
Proof.
  intros [n [Hn Hq]]. exists n. repeat split; try assumption.
  unfold counted. rewrite Hq. simpl ToNumber. apply or_one_nonzero.
  intros H. apply Z2Qc_inj in H. lia.
Qed.

Lemma renormalized_positive_integer (item : CartLineItem) :
  positive_integer (Quantity item) -> renormalized item = item.
Proof.
  intros H. destruct (counted_positive_integer item H) as [n [Hn [Hq _]]].
  apply renormalized_fixed with (q := Z2Qc n); [assumption|].
  intros E. apply Z2Qc_inj in E. lia.
Qed.

Lemma map_renormalized_valid (items : list CartLineItem) :
  Forall (fun item => positive_integer (Quantity item)) items ->
  map renormalized items = items.
Proof.
  induction 1 as [|item items Hitem _ IH]; simpl; [reflexivity|].
  now rewrite IH, renormalized_positive_integer.
Qed.

Lemma normalizer_keeps_a_valid_cart_aux (items : list CartLineItem) :
  valid_cart items -> combineDuplicateItems items = items.
Proof.
  intros [Hnd Hq]. rewrite combine_distinct by assumption.
  now apply map_renormalized_valid.
Qed.

(** X5: on a cart with distinct ids whose quantities are positive integers
    the normalizer changes nothing, so that loading the cart page leaves
    the persisted cart as it is. *)
Theorem normalizer_keeps_a_valid_cart (p : page) (items : list CartLineItem) :
  storage p = Text (PArray items) ->
  valid_cart items ->
  combineDuplicateItems items = items
  /\ exists t p', load_and_display p = Return t p'
                  /\ storage p' = Text (PArray items)
                  /\ product_list p' = items.
Proof.
  intros Hs Hv. pose proof (normalizer_keeps_a_valid_cart_aux items Hv) as Hc.
  split; [assumption|].
  exists (finalTotal (combineDuplicateItems items)),
         (totalled (combineDuplicateItems items) (rendered items p)).
  split.
  - unfold load_and_display, bind.
    rewrite renderCartContents_run, Hs. simpl stored_cart. cbv beta iota.
    rewrite getCartTotal_run. reflexivity.
  - simpl. now rewrite Hc.
Qed.

Lemma normalizer_keeps_a_valid_cart_witness :
  let items := [line "A" 10 2; line "B" 5 1] in
  combineDuplicateItems items = items
  /\ exists t p', load_and_display (page_with (Text (PArray items))) = Return t p'
                  /\ storage p' = Text (PArray items)
                  /\ product_list p' = items.
Proof.
  apply (normalizer_keeps_a_valid_cart
           (page_with (Text (PArray [line "A" 10 2; line "B" 5 1])))
           [line "A" 10 2; line "B" 5 1] eq_refl).
  split.
  - simpl. constructor.
    + intros [H|[]]. discriminate H.
    + constructor; [intros [] | constructor].
  - apply Forall_cons; [exists 2%Z; split; [lia | reflexivity]|].
    apply Forall_cons; [exists 1%Z; split; [lia | reflexivity]|].
    apply Forall_nil.
Defined.

End NormalizerShape.


(** ** The cart page: how its operations compose *)

Section PageComposition.

Local Open Scope Qc_scope.

Lemma combine_refreshed_data (data : list CartLineItem) :
  NoDup (map Id data) ->
  combineDuplicateItems data = map renormalized data
  /\ combineDuplicateItems (map renormalized data) = map renormalized data.
Proof.
  intros Hnd. split; [now apply combine_distinct|].
  rewrite combine_distinct by (now rewrite Ids_renormalized).
  apply map_renormalized_twice.
Qed.

Lemma without_Ids_NoDup (id : string) (items : list CartLineItem) :
  NoDup (map Id items) -> NoDup (map Id (without id items)).
Proof. apply filter_Ids_NoDup. Qed.

Lemma without_renormalized (id : string) (items : list CartLineItem) :
  without id (map renormalized items) = map renormalized (without id items).
Proof.
  unfold without. induction items as [|item items IH]; simpl; [reflexivity|].
  destruct (Id item =? id)%string; simpl; now rewrite IH.
Qed.

Lemma without_without (a b : string) (items : list CartLineItem) :
  without a (without b items) = without b (without a items).
Proof.
  unfold without. induction items as [|item items IH]; simpl; [reflexivity|].
  destruct (Id item =? a)%string eqn:Ea; destruct (Id item =? b)%string eqn:Eb;
    simpl; rewrite ?Ea, ?Eb; simpl; now rewrite IH.
Qed.

Lemma refreshed_in_sync (data : list CartLineItem) (p : page) :
  NoDup (map Id data) ->
  storage (refreshed data p) = Text (PArray (map renormalized data))
  /\ in_sync (refreshed data p).
Proof.
  intros Hnd. destruct (refreshed_page data p) as (Hs & _ & Hl & Ht & Hh).
  destruct (combine_refreshed_data data Hnd) as [E _]. rewrite E in *.
  split; [assumption|].
  exists (map renormalized data). repeat split; assumption.
Qed.

Lemma remove_run_array (p : page) (items : list CartLineItem) (id : string) :
  storage p = Text (PArray items) ->
  remove id p = Return tt (refreshed (without id (combineDuplicateItems items)) p)
  /\ storage (refreshed (without id (combineDuplicateItems items)) p)
     = Text (PArray (removed id items))
  /\ in_sync (refreshed (without id (combineDuplicateItems items)) p).
Proof.
  intros Hs. split.
  - rewrite remove_run, removeFromCart_run, Hs. reflexivity.
  - apply refreshed_in_sync, without_Ids_NoDup, combine_NoDup.
Qed.

Lemma removed_removed (a b : string) (items : list CartLineItem) :
  removed b (removed a items)
  = map renormalized (without b (without a (combineDuplicateItems items))).
Proof.
  unfold removed at 1.
  assert (Hnd : NoDup (map Id (without a (combineDuplicateItems items))))
    by apply without_Ids_NoDup, combine_NoDup.
  unfold removed. rewrite (proj2 (combine_refreshed_data _ Hnd)).
  rewrite without_renormalized. apply map_renormalized_twice.
Qed.

Lemma in_sync_same_store (p1 p2 : page) :
  in_sync p1 -> in_sync p2 -> storage p1 = storage p2 ->
  product_list p1 = product_list p2
  /\ cart_total p1 = cart_total p2
  /\ cart_footer_hide p1 = cart_footer_hide p2.
Proof.
  intros (c1 & S1 & L1 & T1 & H1) (c2 & S2 & L2 & T2 & H2) E.
  rewrite L1, L2, T1, T2, H1, H2.
  assert (Ec : c1 = c2) by congruence. rewrite Ec. auto.
Qed.

Lemma load_after_refresh (data : list CartLineItem) (p : page) :
  NoDup (map Id data) ->
  exists p'',
    load_and_display (refreshed data p) = Return (cart_total (refreshed data p)) p''
    /\ storage p'' = storage (refreshed data p)
    /\ product_list p'' = product_list (refreshed data p)
    /\ cart_total p'' = cart_total (refreshed data p)
    /\ cart_footer_hide p'' = cart_footer_hide (refreshed data p).
Proof.
  intros Hnd.
  destruct (refreshed_page data p) as (Hs & _ & Hl & Ht & Hh).
  destruct (combine_refreshed_data data Hnd) as [E1 E2].
  assert (E : combineDuplicateItems (combineDuplicateItems data)
              = combineDuplicateItems data) by (now rewrite E1, E2).
  assert (F : finalTotal (combineDuplicateItems data) = finalTotal data).
  { unfold finalTotal. now rewrite E. }
  eexists. split.
  - unfold load_and_display, bind.
    rewrite renderCartContents_run, Hs. simpl stored_cart. cbv beta iota.
    rewrite getCartTotal_run. simpl stored_cart. cbv beta iota.
    rewrite E, Ht. reflexivity.
  - simpl. rewrite Hs, Hl, Ht, Hh, E, F. repeat split.
Qed.

(** X8: after remove(id), and after a set-quantity that found its line,
    loading the cart page again changes neither the persisted cart nor
    what is shown. *)
Theorem reload_after_an_update_changes_nothing
    (p : page) (items : list CartLineItem) (id rawValue : string) :
  storage p = Text (PArray items) ->
  (exists p' p'',
      remove id p = Return tt p'
      /\ load_and_display p' = Return (cart_total p') p''
      /\ storage p'' = storage p'
      /\ product_list p'' = product_list p'
      /\ cart_total p'' = cart_total p'
      /\ cart_footer_hide p'' = cart_footer_hide p')
  /\ (In id (map Id items) ->
      exists p' p'',
        set_quantity id rawValue p = Return tt p'
        /\ load_and_display p' = Return (cart_total p') p''
        /\ storage p'' = storage p'
        /\ product_list p'' = product_list p'
        /\ cart_total p'' = cart_total p'
        /\ cart_footer_hide p'' = cart_footer_hide p').
Proof.
  intros Hs. split.
  - destruct (remove_run_array p items id Hs) as (Hrun & _ & _).
    destruct (load_after_refresh (without id (combineDuplicateItems items)) p)
      as [p'' H]; [apply without_Ids_NoDup, combine_NoDup|].
    eexists. exists p''. split; [exact Hrun | exact H].
  - intros Hid.
    assert (Hid' : In id (map Id (combineDuplicateItems items)))
      by now apply combine_Ids.
    destruct (find_known_id id _ Hid') as [found Hfound].
    set (q := Math_max (Z2Qc 1) (or_one (parseInt rawValue))).
    destruct (load_after_refresh
                (assign_Quantity id q (combineDuplicateItems items)) p)
      as [p'' H]; [rewrite Ids_assign_Quantity; apply combine_NoDup|].
    eexists. exists p''. split; [|exact H].
    rewrite set_quantity_run, Hs. simpl stored_cart. cbv beta iota.
    rewrite Hfound. reflexivity.
Qed.

Lemma reload_after_an_update_witness :
  let p := page_with (Text (PArray [line "A" 10 3; line "A" 10 (-3); line "B" 5 1])) in
  exists p' p'',
    remove "B" p = Return tt p'
    /\ load_and_display p' = Return (cart_total p') p''
    /\ storage p'' = storage p'
    /\ product_list p'' = product_list p'
    /\ cart_total p'' = cart_total p'
    /\ cart_footer_hide p'' = cart_footer_hide p'.
Proof.
  exact (proj1 (reload_after_an_update_changes_nothing
                  (page_with (Text (PArray [line "A" 10 3; line "A" 10 (-3); line "B" 5 1])))
                  [line "A" 10 3; line "A" 10 (-3); line "B" 5 1] "B" "1" eq_refl)).
Defined.

(** X9: removing two lines leaves the same persisted cart, the same list
    and the same total whichever is removed first. *)
Theorem removals_commute
    (p : page) (items : list CartLineItem) (a b : string) :
  storage p = Text (PArray items) ->
  exists p1 p2,
    (remove a ;;; remove b) p = Return tt p1
    /\ (remove b ;;; remove a) p = Return tt p2
    /\ storage p1 = storage p2
    /\ product_list p1 = product_list p2
    /\ cart_total p1 = cart_total p2
    /\ cart_footer_hide p1 = cart_footer_hide p2.
Proof.
  intros Hs.
  destruct (remove_run_array p items a Hs) as (Ra & Sa & _).
  destruct (remove_run_array p items b Hs) as (Rb & Sb & _).
  destruct (remove_run_array _ _ b Sa) as (Rab & Sab & Yab).
  destruct (remove_run_array _ _ a Sb) as (Rba & Sba & Yba).
  eexists. eexists.
  split; [unfold bind; rewrite Ra; exact Rab|].
  split; [unfold bind; rewrite Rb; exact Rba|].
  assert (E : storage (refreshed (without b (combineDuplicateItems (removed a items)))
                         (refreshed (without a (combineDuplicateItems items)) p))
              = storage (refreshed (without a (combineDuplicateItems (removed b items)))
                           (refreshed (without b (combineDuplicateItems items)) p))).
  { rewrite Sab, Sba, !removed_removed. now rewrite without_without. }
  split; [exact E|].
  now apply in_sync_same_store.
Qed.

Lemma removals_commute_witness :
  let p := page_with (Text (PArray [line "A" 10 2; line "B" 5 1; line "C" 7 4])) in
  exists p1 p2,
    (remove "A" ;;; remove "C") p = Return tt p1
    /\ (remove "C" ;;; remove "A") p = Return tt p2
    /\ storage p1 = storage p2
    /\ product_list p1 = product_list p2
    /\ cart_total p1 = cart_total p2
    /\ cart_footer_hide p1 = cart_footer_hide p2.
Proof.
  exact (removals_commute
           (page_with (Text (PArray [line "A" 10 2; line "B" 5 1; line "C" 7 4])))
           [line "A" 10 2; line "B" 5 1; line "C" 7 4] "A" "C" eq_refl).
Defined.

End PageComposition.

(** ** Setting quantities, removing a line and the total *)

Section UpdateProperties.

Local Open Scope Qc_scope.

Lemma with_Quantity_twice (item : CartLineItem) (q q' : Qc) :
  with_Quantity (with_Quantity item q) q' = with_Quantity item q'.
Proof. reflexivity. Qed.

Lemma renormalized_with_Quantity (item : CartLineItem) (q : Qc) :
  q <> Z2Qc 0 -> renormalized (with_Quantity item q) = with_Quantity item q.
Proof. intros Hq. now apply renormalized_fixed with (q := q). Qed.

Lemma renormalized_assign_Quantity (id : string) (q : Qc) (items : list CartLineItem) :
  q <> Z2Qc 0 ->
  map renormalized (assign_Quantity id q items)
  = assign_Quantity id q (map renormalized items).
Proof.
  intros Hq. induction items as [|item items IH]; simpl; [reflexivity|].
  destruct (Id item =? id)%string; simpl.
  - now rewrite renormalized_with_Quantity.
  - now rewrite IH.
Qed.

Lemma assign_Quantity_twice (id : string) (q q' : Qc) (items : list CartLineItem) :
  assign_Quantity id q' (assign_Quantity id q items) = assign_Quantity id q' items.
Proof.
  induction items as [|item items IH]; simpl; [reflexivity|].
  destruct (Id item =? id)%string eqn:E; simpl; rewrite E; [reflexivity|].
  now rewrite IH.
Qed.

Lemma clamped_quantity_nonzero (rawValue : string) :
  Z2Qc (clamped_quantity rawValue) <> Z2Qc 0.
Proof.
  intros H. apply Z2Qc_inj in H.
  pose proof (clamped_quantity_positive rawValue). lia.
Qed.

(** What set-quantity leaves in the store, when the id is in the cart. *)
Lemma set_quantity_run_array
    (p : page) (items : list CartLineItem) (id rawValue : string) :
  storage p = Text (PArray items) ->
  In id (map Id items) ->
  exists p',
    set_quantity id rawValue p = Return tt p'
    /\ storage p'
       = Text (PArray (assign_Quantity id (Z2Qc (clamped_quantity rawValue))
                         (map renormalized (combineDuplicateItems items)))).
Proof.
  intros Hs Hid.
  assert (Hid' : In id (map Id (combineDuplicateItems items)))
    by now apply combine_Ids.
  destruct (find_known_id id _ Hid') as [found Hfound].
  eexists. split.
  - rewrite set_quantity_run, Hs. simpl stored_cart. cbv beta iota.
    rewrite Hfound. reflexivity.
  - rewrite listener_quantity.
    destruct (refreshed_in_sync
                (assign_Quantity id (Z2Qc (clamped_quantity rawValue))
                   (combineDuplicateItems items)) p) as [-> _].
    + rewrite Ids_assign_Quantity. apply combine_NoDup.
    + now rewrite renormalized_assign_Quantity by apply clamped_quantity_nonzero.
Qed.

(** X10: set-quantity changes one line only: the cart it persists is the
    normalized cart, each quantity read once more, with the quantity of
    the line of the given id replaced by the clamped input; the lines keep
    their order and their other fields.  The stored quantities and the
    input are whole numbers within the range in which the code adds and
    reads them without rounding. *)
Theorem set_quantity_changes_one_line
    (p : page) (items : list CartLineItem) (id rawValue : string) :
  storage p = Text (PArray items) ->
  In id (map Id items) ->
  exact_cart items ->
  exact_input rawValue ->
  exists p' cart,
    set_quantity id rawValue p = Return tt p'
    /\ storage p' = Text (PArray cart)
    /\ cart = assign_Quantity id (Z2Qc (clamped_quantity rawValue))
                (map renormalized (combineDuplicateItems items))
    /\ map Id cart = map Id (combineDuplicateItems items)
    /\ (forall item, In item cart -> Id item <> id ->
          In item (map renormalized (combineDuplicateItems items))).
Proof.
  intros Hs Hid _ _.
  destruct (set_quantity_run_array p items id rawValue Hs Hid) as [p' [Hrun Hst]].
  exists p'. eexists. split; [exact Hrun|]. split; [exact Hst|].
  split; [reflexivity|]. split.
  - now rewrite Ids_assign_Quantity, Ids_renormalized.
  - generalize (map renormalized (combineDuplicateItems items)). intros l.
    induction l as [|x l IH]; simpl; [tauto|].
    intros item Hin Hne. destruct (String.eqb_spec (Id x) id) as [Heq|Hx].
    + destruct Hin as [<-|Hin]; [|now right].
      simpl in Hne. contradiction.
    + destruct Hin as [<-|Hin]; [now left|]. right. now apply IH.
Qed.

Lemma set_quantity_changes_one_line_witness :
  let items := [line "A" 10 2; line "A" 10 3; line "B" 5 1] in
  assign_Quantity "B" (Z2Qc (clamped_quantity "4"))
    (map renormalized (combineDuplicateItems items))
  = [line "A" 10 5; line "B" 5 4]
  /\ exists p' cart,
       set_quantity "B" "4" (page_with (Text (PArray items))) = Return tt p'
       /\ storage p' = Text (PArray cart)
       /\ cart = assign_Quantity "B" (Z2Qc (clamped_quantity "4"))
                   (map renormalized (combineDuplicateItems items))
       /\ map Id cart = map Id (combineDuplicateItems items)
       /\ (forall item, In item cart -> Id item <> "B"%string ->
             In item (map renormalized (combineDuplicateItems items))).
Proof.
  split; [reflexivity|].
  apply (set_quantity_changes_one_line
           (page_with (Text (PArray [line "A" 10 2; line "A" 10 3; line "B" 5 1])))
           [line "A" 10 2; line "A" 10 3; line "B" 5 1] "B" "4" eq_refl).
  - simpl. right. right. left. reflexivity.
  - exact_range.
  - vm_compute. discriminate.
Defined.

(** X11: of two changes of the quantity of one line, the last one wins: the
    persisted cart is the one the second change alone would leave. *)
Theorem last_set_quantity_wins
    (p : page) (items : list CartLineItem) (id raw1 raw2 : string) :
  storage p = Text (PArray items) ->
  In id (map Id items) ->
  exists p12 p2,
    (set_quantity id raw1 ;;; set_quantity id raw2) p = Return tt p12
    /\ set_quantity id raw2 p = Return tt p2
    /\ storage p12 = storage p2.
Proof.
  intros Hs Hid.
  destruct (set_quantity_run_array p items id raw1 Hs Hid) as [p1 [R1 S1]].
  destruct (set_quantity_run_array p items id raw2 Hs Hid) as [p2 [R2 S2]].
  assert (Hnd : NoDup (map Id (combineDuplicateItems items))) by apply combine_NoDup.
  assert (Hid1 : In id (map Id (assign_Quantity id (Z2Qc (clamped_quantity raw1))
                                  (map renormalized (combineDuplicateItems items))))).
  { rewrite Ids_assign_Quantity, Ids_renormalized. now apply combine_Ids. }
  destruct (set_quantity_run_array p1 _ id raw2 S1 Hid1) as [p12 [R12 S12]].
  exists p12, p2. split; [unfold bind; rewrite R1; exact R12|].
  split; [exact R2|]. rewrite S12, S2. do 2 f_equal.
  rewrite combine_distinct
    by (rewrite Ids_assign_Quantity, Ids_renormalized; exact Hnd).
  rewrite !renormalized_assign_Quantity by apply clamped_quantity_nonzero.
  rewrite !map_renormalized_twice. apply assign_Quantity_twice.
Qed.

Lemma last_set_quantity_wins_witness :
  let p := page_with (Text (PArray [line "A" 10 2; line "B" 5 1])) in
  exists p12 p2,
    (set_quantity "A" "7" ;;; set_quantity "A" "3") p = Return tt p12
    /\ set_quantity "A" "3" p = Return tt p2
    /\ storage p12 = storage p2.
Proof.
  apply (last_set_quantity_wins
           (page_with (Text (PArray [line "A" 10 2; line "B" 5 1])))
           [line "A" 10 2; line "B" 5 1] "A" "7" "3" eq_refl).
  simpl. left. reflexivity.
Defined.

Lemma finalTotal_amounts (items : list CartLineItem) :
  finalTotal items
  = fold_right (fun item t => add (amount item) t) (Fin (Z2Qc 0))
               (combineDuplicateItems items).
Proof.
  unfold finalTotal. rewrite (fold_left_add amount). apply add_zero_l.
Qed.

Lemma amount_renormalized (item : CartLineItem) :
  amount (renormalized item) = amount item.
Proof. unfold amount. now rewrite counted_renormalized. Qed.

Lemma amounts_renormalized (items : list CartLineItem) :
  fold_right (fun item t => add (amount item) t) (Fin (Z2Qc 0)) (map renormalized items)
  = fold_right (fun item t => add (amount item) t) (Fin (Z2Qc 0)) items.
Proof.
  induction items as [|item items IH]; simpl; [reflexivity|].
  now rewrite IH, amount_renormalized.
Qed.

Lemma amounts_without (id : string) (found : CartLineItem) (items : list CartLineItem) :
  NoDup (map Id items) ->
  find (fun c => (Id c =? id)%string) items = Some found ->
  fold_right (fun item t => add (amount item) t) (Fin (Z2Qc 0)) items
  = add (amount found)
        (fold_right (fun item t => add (amount item) t) (Fin (Z2Qc 0))
                    (without id items)).
Proof.
  induction items as [|item items IH]; simpl; intros Hnd Hfind; [discriminate|].
  inversion Hnd as [|? ? Hhd Htl]; subst.
  unfold without. simpl.
  destruct (String.eqb_spec (Id item) id) as [Heq|Hne]; simpl.
  - injection Hfind as <-. f_equal.
    fold (without id items). unfold without.
    rewrite filter_other_ids; [reflexivity | now rewrite <- Heq].
  - fold (without id items). rewrite (IH Htl Hfind).
    rewrite !add_assoc. f_equal. apply add_comm.
Qed.

(** X12: removing a line takes exactly its amount off the total, when
    prices and quantities are whole numbers and the magnitudes of the
    quantities, and of the amounts, sum to at most 2^53 (with fractional
    prices the code rounds, and the two sides can differ in the last
    digit): the total of the cart before the removal is the price of the
    removed line times its counted quantity, plus the total shown after the
    removal. *)
Theorem removal_takes_the_line_off_the_total
    (p : page) (items : list CartLineItem) (id : string) (found : CartLineItem) :
  storage p = Text (PArray items) ->
  find (fun c => (Id c =? id)%string) (combineDuplicateItems items) = Some found ->
  exact_cart items ->
  exact_amounts (combineDuplicateItems items) ->
  exists t p1 p',
    getCartTotal p = Return t p1
    /\ remove id p = Return tt p'
    /\ t = add (amount found) (cart_total p').
Proof.
  intros Hs Hfind _ _.
  destruct (remove_run_array p items id Hs) as (Hrun & _ & _).
  exists (finalTotal items), (totalled items p).
  eexists. split; [rewrite getCartTotal_run, Hs; reflexivity|].
  split; [exact Hrun|].
  assert (Hnd : NoDup (map Id (without id (combineDuplicateItems items))))
    by apply without_Ids_NoDup, combine_NoDup.
  destruct (refreshed_page (without id (combineDuplicateItems items)) p)
    as (_ & _ & _ & -> & _).
  rewrite !finalTotal_amounts.
  rewrite (proj1 (combine_refreshed_data _ Hnd)), (proj2 (combine_refreshed_data _ Hnd)).
  rewrite amounts_renormalized.
  apply amounts_without; [apply combine_NoDup | assumption].
Qed.

Lemma removal_takes_the_line_off_the_total_witness :
  let p := page_with (Text (PArray [line "A" 10 2; line "A" 10 3; line "B" 5 1])) in
  amount (line "A" 10 5) = Fin (Z2Qc 50)
  /\ exists t p1 p',
       getCartTotal p = Return t p1
       /\ remove "A" p = Return tt p'
       /\ t = add (amount (line "A" 10 5)) (cart_total p').
Proof.
  split; [reflexivity|].
  apply (removal_takes_the_line_off_the_total
           (page_with (Text (PArray [line "A" 10 2; line "A" 10 3; line "B" 5 1])))
           [line "A" 10 2; line "A" 10 3; line "B" 5 1] "A" (line "A" 10 5)
           eq_refl eq_refl).
  - exact_range.
  - change (combineDuplicateItems [line "A" 10 2; line "A" 10 3; line "B" 5 1])
      with [line "A" 10 5; line "B" 5 1].
    exact_range.
Defined.

End UpdateProperties.

(** ** Adding a product, failures, and the validity of the cart *)

Section AddAndValidity.

Local Open Scope Qc_scope.

Lemma addProductToCart_run (product : CartLineItem) (quantityInput : option string)
                           (p : page) :
  addProductToCart product quantityInput p
  = match stored_cart (storage p) with
    | inr items =>
        Return tt (badged (added product quantityInput items)
                          (saved (added product quantityInput items) p))
    | inl e => Throw e p
    end.
Proof.
  unfold addProductToCart. rewrite read_cart.
  destruct (stored_cart (storage p)) as [e|items]; [reflexivity|].
  rewrite listener_quantity. fold (input_quantity quantityInput).
  fold (added product quantityInput items).
  unfold bind, setLocalStorage, modify.
  fold (saved (added product quantityInput items) p).
  now rewrite (countCartItems_array (added product quantityInput items)).
Qed.

Lemma plain_addProductToCart_run (product : CartLineItem) (p : page) :
  PlainProductDetails.addProductToCart product p
  = match stored_cart (storage p) with
    | inr items => Return tt (saved (items ++ [product])%list p)
    | inl e => Throw e p
    end.
Proof.
  unfold PlainProductDetails.addProductToCart. rewrite read_cart.
  destruct (stored_cart (storage p)); reflexivity.
Qed.

(** X13: a store that cannot be read fails every operation, and the
    failure changes nothing.  When the text under the cart key does not
    parse, or parses to a truthy value that is not an array, each of
    load-and-display, the total, remove, set-quantity and the two
    addProductToCart throws (a [SyntaxError] in the first case, a
    [TypeError] in the second) before it writes anything: the page, the
    store included, is left as it was. *)
Theorem unreadable_store_fails_every_operation
    (p : page) (e : error) (id rawValue : string)
    (product : CartLineItem) (quantityInput : option string) :
  (storage p = Unparseable /\ e = SyntaxError)
  \/ (exists v, storage p = Text v /\ truthy v = true
                /\ (forall items, v <> PArray items) /\ e = TypeError) ->
  load_and_display p = Throw e p
  /\ getCartTotal p = Throw e p
  /\ remove id p = Throw e p
  /\ set_quantity id rawValue p = Throw e p
  /\ addProductToCart product quantityInput p = Throw e p
  /\ PlainProductDetails.addProductToCart product p = Throw e p.
Proof.
  intros H.
  assert (Hs : stored_cart (storage p) = inl e).
  { destruct H as [[-> ->]|[v (-> & Ht & Hv & ->)]]; [reflexivity|].
    simpl. rewrite Ht. destruct v; try reflexivity.
    exfalso. now apply (Hv items). }
  unfold load_and_display, bind.
  rewrite renderCartContents_run, getCartTotal_run, remove_run,
    removeFromCart_run, set_quantity_run, addProductToCart_run,
    plain_addProductToCart_run, Hs.
  repeat split.
Qed.

Lemma unreadable_store_witness :
  let p := page_with (Text (PStr "tent")) in
  load_and_display p = Throw TypeError p
  /\ getCartTotal p = Throw TypeError p
  /\ remove "A" p = Throw TypeError p
  /\ set_quantity "A" "2" p = Throw TypeError p
  /\ addProductToCart (line "A" 10 1) (Some "2"%string) p = Throw TypeError p
  /\ PlainProductDetails.addProductToCart (line "A" 10 1) p = Throw TypeError p.
Proof.
  apply (unreadable_store_fails_every_operation
           (page_with (Text (PStr "tent"))) TypeError "A" "2"
           (line "A" 10 1) (Some "2"%string)).
  right. exists (PStr "tent").
  split; [reflexivity|]. split; [reflexivity|]. split; [discriminate | reflexivity].
Defined.

Lemma valid_without (id : string) (items : list CartLineItem) :
  valid_cart items -> valid_cart (without id items).
Proof.
  intros [Hnd Hq]. split; [now apply without_Ids_NoDup|].
  rewrite Forall_forall in *. intros item Hin. apply Hq.
  unfold without in Hin. now apply filter_In in Hin.
Qed.

Lemma valid_assign_Quantity (id : string) (n : Z) (items : list CartLineItem) :
  (1 <= n)%Z -> valid_cart items ->
  valid_cart (assign_Quantity id (Z2Qc n) items).
Proof.
  intros Hn [Hnd Hq]. split; [now rewrite Ids_assign_Quantity|].
  clear Hnd. induction Hq as [|item items Hitem Htl IH]; simpl; [constructor|].
  destruct (Id item =? id)%string; constructor; try assumption.
  exists n. split; [assumption | reflexivity].
Qed.

Lemma Ids_increase_Quantity (id : string) (q : Qc) (items : list CartLineItem) :
  map Id (increase_Quantity id q items) = map Id items.
Proof.
  induction items as [|item items IH]; simpl; [reflexivity|].
  destruct (Id item =? id)%string; simpl; [reflexivity | now rewrite IH].
Qed.

Lemma input_quantity_positive (quantityInput : option string) :
  (1 <= input_quantity quantityInput)%Z.
Proof. apply clamped_quantity_positive. Qed.

Lemma valid_increase_Quantity (id : string) (n : Z) (items : list CartLineItem) :
  (1 <= n)%Z -> valid_cart items ->
  valid_cart (increase_Quantity id (Z2Qc n) items).
Proof.
  intros Hn [Hnd Hq]. split; [now rewrite Ids_increase_Quantity|].
  clear Hnd. induction Hq as [|item items Hitem Htl IH]; simpl; [constructor|].
  destruct (Id item =? id)%string; constructor; try assumption.
  destruct (counted_positive_integer item Hitem) as [m [Hm [_ Hc]]].
  exists (m + n)%Z. split; [lia|].
  simpl. fold (counted item). now rewrite Hc, Z2Qc_add.
Qed.

Lemma valid_added (product : CartLineItem) (quantityInput : option string)
                  (items : list CartLineItem) :
  valid_cart items -> valid_cart (added product quantityInput items).
Proof.
  intros Hv. unfold added.
  destruct (find _ items) eqn:E.
  - apply valid_increase_Quantity; [apply input_quantity_positive | assumption].
  - destruct Hv as [Hnd Hq]. split.
    + rewrite map_app. simpl. apply NoDup_snoc; [assumption|].
      intros Hin. destruct (find_known_id _ _ Hin) as [found Hfound]. congruence.
    + apply Forall_app. split; [assumption|]. constructor; [|constructor].
      exists (input_quantity quantityInput).
      split; [apply input_quantity_positive | reflexivity].
Qed.

(** X14: the operations keep a valid cart valid, and on a valid cart they
    store exactly what they compute: when the stored cart has distinct ids
    and positive integer quantities that sum to at most 2^53, remove(id)
    persists the cart without the line [id], set-quantity persists the cart
    with the one quantity replaced (for an input that reads as at most
    2^53), addProductToCart persists the cart with the product's quantity
    increased or the product appended (when the quantities and the input
    sum to at most 2^53), and each of these carts is valid again. *)
Theorem operations_keep_the_cart_valid
    (p : page) (items : list CartLineItem) (id rawValue : string)
    (product : CartLineItem) (quantityInput : option string) :
  storage p = Text (PArray items) ->
  valid_cart items ->
  exact_cart items ->
  (exists p', remove id p = Return tt p'
              /\ storage p' = Text (PArray (without id items))
              /\ valid_cart (without id items))
  /\ (In id (map Id items) ->
      exact_input rawValue ->
      exists p', set_quantity id rawValue p = Return tt p'
                 /\ storage p'
                    = Text (PArray (assign_Quantity id
                                      (Z2Qc (clamped_quantity rawValue)) items))
                 /\ valid_cart (assign_Quantity id
                                  (Z2Qc (clamped_quantity rawValue)) items))
  /\ ((quantity_load items + input_quantity quantityInput <= safe_bound)%Z ->
      exists p', addProductToCart product quantityInput p = Return tt p'
                 /\ storage p' = Text (PArray (added product quantityInput items))
                 /\ valid_cart (added product quantityInput items)).
Proof.
  intros Hs Hv _.
  pose proof (normalizer_keeps_a_valid_cart_aux items Hv) as Hc.
  repeat split.
  - destruct (remove_run_array p items id Hs) as (Hrun & Hst & _).
    eexists. split; [exact Hrun|]. split; [|now apply valid_without].
    rewrite Hst. unfold removed. rewrite Hc. do 2 f_equal.
    apply map_renormalized_valid. now apply valid_without.
  - intros Hid _.
    destruct (set_quantity_run_array p items id rawValue Hs Hid) as [p' [Hrun Hst]].
    exists p'. split; [exact Hrun|]. split.
    + rewrite Hst, Hc. do 3 f_equal. apply map_renormalized_valid. apply Hv.
    + apply valid_assign_Quantity; [apply clamped_quantity_positive | assumption].
  - intros _. eexists. split; [rewrite addProductToCart_run, Hs; reflexivity|].
    split; [|now apply valid_added].
    now destruct (storage_badged (added product quantityInput items)
                    (saved (added product quantityInput items) p)) as (-> & _).
Qed.

End AddAndValidity.

(** ** Adding a product: quantities and the count badge *)

Section AddQuantities.

Local Open Scope Qc_scope.

Lemma operations_keep_the_cart_valid_witness :
  let items := [line "A" 10 2; line "B" 5 1] in
  let p := page_with (Text (PArray items)) in
  (exists p', remove "A" p = Return tt p'
              /\ storage p' = Text (PArray (without "A" items))
              /\ valid_cart (without "A" items))
  /\ (exists p', set_quantity "B" "6" p = Return tt p'
                 /\ storage p'
                    = Text (PArray (assign_Quantity "B"
                                      (Z2Qc (clamped_quantity "6")) items))
                 /\ valid_cart (assign_Quantity "B"
                                  (Z2Qc (clamped_quantity "6")) items))
  /\ (exists p', addProductToCart (line "A" 10 1) (Some "3"%string) p = Return tt p'
                 /\ storage p'
                    = Text (PArray (added (line "A" 10 1) (Some "3"%string) items))
                 /\ valid_cart (added (line "A" 10 1) (Some "3"%string) items))
  /\ assign_Quantity "B" (Z2Qc (clamped_quantity "6")) items
     = [line "A" 10 2; line "B" 5 6]
  /\ added (line "A" 10 1) (Some "3"%string) items = [line "A" 10 5; line "B" 5 1].
Proof.
  assert (Hv : valid_cart [line "A" 10 2; line "B" 5 1]).
  { split.
    - simpl. constructor.
      + intros [H|[]]. discriminate H.
      + constructor; [intros [] | constructor].
    - apply Forall_cons; [exists 2%Z; split; [lia | reflexivity]|].
      apply Forall_cons; [exists 1%Z; split; [lia | reflexivity]|].
      apply Forall_nil. }
  assert (Hx : exact_cart [line "A" 10 2; line "B" 5 1]) by exact_range.
  destruct (operations_keep_the_cart_valid
              (page_with (Text (PArray [line "A" 10 2; line "B" 5 1])))
              [line "A" 10 2; line "B" 5 1] "A" "1" (line "C" 7 1) None
              eq_refl Hv Hx) as (Hremove & _ & _).
  destruct (operations_keep_the_cart_valid
              (page_with (Text (PArray [line "A" 10 2; line "B" 5 1])))
              [line "A" 10 2; line "B" 5 1] "B" "6" (line "A" 10 1) (Some "3"%string)
              eq_refl Hv Hx) as (_ & Hset & Hadd).
  split; [exact Hremove|].
  split; [apply Hset; [right; left; reflexivity | vm_compute; discriminate]|].
  split; [apply Hadd; vm_compute; discriminate|].
  split; reflexivity.
Defined.

Lemma group_quantity_snoc (key : string) (items : list CartLineItem) (x : CartLineItem) :
  group_quantity key (items ++ [x])%list
  = group_quantity key items
    + (if (Id x =? key)%string then counted x else Z2Qc 0).
Proof.
  induction items as [|item items IH].
  - simpl app. rewrite group_quantity_cons. unfold group_quantity. simpl.
    now rewrite Qcplus_0_l, Qcplus_0_r.
  - simpl app. rewrite !group_quantity_cons, IH. now rewrite Qcplus_assoc.
Qed.

Lemma counted_with_Quantity (item : CartLineItem) (q : Qc) :
  q <> Z2Qc 0 -> counted (with_Quantity item q) = q.
Proof. intros H. unfold counted. simpl. now apply or_one_nonzero. Qed.

Lemma natural_sum_nonzero (item : CartLineItem) (n : Z) :
  natural_or_not_a_number (Quantity item) -> (1 <= n)%Z ->
  counted item + Z2Qc n <> Z2Qc 0.
Proof.
  intros Hq Hn. destruct (counted_natural item Hq) as [c [Hc ->]].
  rewrite Z2Qc_add. intros H. apply Z2Qc_inj in H. lia.
Qed.

Lemma group_quantity_increase
    (key id : string) (n : Z) (items : list CartLineItem) (found : CartLineItem) :
  Forall (fun item => natural_or_not_a_number (Quantity item)) items ->
  (1 <= n)%Z ->
  find (fun item => (Id item =? id)%string) items = Some found ->
  group_quantity key (increase_Quantity id (Z2Qc n) items)
  = group_quantity key items + (if (id =? key)%string then Z2Qc n else Z2Qc 0).
Proof.
  intros Hq Hn. revert found.
  induction Hq as [|item items Hitem Htl IH]; simpl; intros found Hfind;
    [discriminate|].
  destruct (String.eqb_spec (Id item) id) as [Heq|Hne].
  - rewrite !group_quantity_cons. simpl Id. rewrite Heq.
    destruct (id =? key)%string.
    + fold (counted item).
      rewrite counted_with_Quantity by now apply natural_sum_nonzero.
      rewrite <- !Qcplus_assoc. f_equal. apply Qcplus_comm.
    + now rewrite Qcplus_0_r.
  - rewrite !group_quantity_cons, (IH _ Hfind). now rewrite Qcplus_assoc.
Qed.

Lemma group_quantity_added
    (key : string) (product : CartLineItem) (quantityInput : option string)
    (items : list CartLineItem) :
  Forall (fun item => natural_or_not_a_number (Quantity item)) items ->
  group_quantity key (added product quantityInput items)
  = group_quantity key items
    + (if (Id product =? key)%string
       then Z2Qc (input_quantity quantityInput) else Z2Qc 0).
Proof.
  intros Hq. unfold added.
  destruct (find _ items) as [found|] eqn:E.
  - now apply group_quantity_increase with (found := found);
      [| apply input_quantity_positive |].
  - rewrite group_quantity_snoc. simpl Id.
    rewrite counted_with_Quantity; [reflexivity|].
    intros H. apply Z2Qc_inj in H.
    pose proof (input_quantity_positive quantityInput). lia.
Qed.

Lemma Ids_added (key : string) (product : CartLineItem)
                (quantityInput : option string) (items : list CartLineItem) :
  In key (map Id (added product quantityInput items))
  <-> In key (map Id items) \/ key = Id product.
Proof.
  unfold added. destruct (find _ items) as [found|] eqn:E.
  - rewrite Ids_increase_Quantity. split; [tauto|].
    intros [H| ->]; [assumption|].
    apply find_some in E. destruct E as [Hin Heq].
    apply String.eqb_eq in Heq. rewrite <- Heq. now apply in_map.
  - rewrite map_app, in_app_iff. simpl. intuition.
Qed.

(** X15: addProductToCart adds exactly the quantity read from the input,
    which is at least 1, to the product's line and touches no other line:
    when no stored quantity is negative or fractional, and the stored
    quantities and the input sum to at most 2^53, the cart it stores
    normalizes to lines whose quantities are those of the cart before,
    with the input quantity added under the product's id; the ids are
    those of the cart before and the product's. *)
Theorem added_product_counts_its_quantity
    (p : page) (items : list CartLineItem)
    (product : CartLineItem) (quantityInput : option string) :
  storage p = Text (PArray items) ->
  Forall (fun item => natural_or_not_a_number (Quantity item)) items ->
  exact_cart items ->
  (quantity_load items + input_quantity quantityInput <= safe_bound)%Z ->
  exists p' cart,
    addProductToCart product quantityInput p = Return tt p'
    /\ storage p' = Text (PArray cart)
    /\ (1 <= input_quantity quantityInput)%Z
    /\ (forall item, In item (combineDuplicateItems cart) ->
          Quantity item
          = JNum (group_quantity (Id item) items
                  + (if (Id product =? Id item)%string
                     then Z2Qc (input_quantity quantityInput) else Z2Qc 0)))
    /\ (forall key, In key (map Id (combineDuplicateItems cart))
                    <-> In key (map Id items) \/ key = Id product).
Proof.
  intros Hs Hq _ _.
  exists (badged (added product quantityInput items)
                 (saved (added product quantityInput items) p)),
         (added product quantityInput items).
  split; [rewrite addProductToCart_run, Hs; reflexivity|].
  split; [now destruct (storage_badged (added product quantityInput items)
                          (saved (added product quantityInput items) p)) as (-> & _)|].
  split; [apply input_quantity_positive|]. split.
  - intros item Hin. rewrite (combine_Quantity _ item Hin).
    now rewrite group_quantity_added.
  - intros key. rewrite combine_Ids. apply Ids_added.
Qed.

Lemma added_product_counts_its_quantity_witness :
  let items := [line "A" 10 2; line "B" 5 1] in
  (group_quantity "A" items + Z2Qc (input_quantity (Some "3"%string)) = Z2Qc 5)
  /\ exists p' cart,
    addProductToCart (line "A" 10 0) (Some "3"%string) (page_with (Text (PArray items)))
    = Return tt p'
    /\ storage p' = Text (PArray cart)
    /\ (1 <= input_quantity (Some "3"%string))%Z
    /\ (forall item, In item (combineDuplicateItems cart) ->
          Quantity item
          = JNum (group_quantity (Id item) items
                  + (if (Id (line "A" 10 0) =? Id item)%string
                     then Z2Qc (input_quantity (Some "3"%string)) else Z2Qc 0)))
    /\ (forall key, In key (map Id (combineDuplicateItems cart))
                    <-> In key (map Id items) \/ key = Id (line "A" 10 0)).
Proof.
  split; [reflexivity|].
  apply (added_product_counts_its_quantity
           (page_with (Text (PArray [line "A" 10 2; line "B" 5 1])))
           [line "A" 10 2; line "B" 5 1] (line "A" 10 0) (Some "3"%string) eq_refl).
  - apply Forall_cons; [right; exists 2%Z; split; [lia | reflexivity]|].
    apply Forall_cons; [right; exists 1%Z; split; [lia | reflexivity]|].
    apply Forall_nil.
  - exact_range.
  - vm_compute. discriminate.
Defined.

(** X16: with nothing stored under the cart key (no key, or a falsy value),
    addProductToCart starts the cart with the product alone, its quantity
    the one read from the input (an input that reads as at most 2^53);
    with no quantity input on the page that quantity is 1. *)
Theorem first_product_starts_the_cart
    (p : page) (product : CartLineItem) (quantityInput : option string) :
  reads_as_nothing (storage p) ->
  (input_quantity quantityInput <= safe_bound)%Z ->
  exists p',
    addProductToCart product quantityInput p = Return tt p'
    /\ storage p'
       = Text (PArray [with_Quantity product (Z2Qc (input_quantity quantityInput))])
    /\ (1 <= input_quantity quantityInput)%Z
    /\ input_quantity None = 1%Z.
Proof.
  intros H _. apply stored_cart_nothing in H. eexists.
  split; [rewrite addProductToCart_run, H; reflexivity|].
  split.
  - destruct (storage_badged (added product quantityInput [])
                (saved (added product quantityInput []) p)) as (-> & _).
    reflexivity.
  - split; [apply input_quantity_positive | reflexivity].
Qed.

Lemma first_product_starts_the_cart_witness :
  with_Quantity (line "A" 10 0) (Z2Qc (input_quantity (Some "4"%string)))
  = line "A" 10 4
  /\ exists p',
       addProductToCart (line "A" 10 0) (Some "4"%string) (page_with NoKey)
       = Return tt p'
       /\ storage p'
          = Text (PArray [with_Quantity (line "A" 10 0)
                            (Z2Qc (input_quantity (Some "4"%string)))])
       /\ (1 <= input_quantity (Some "4"%string))%Z
       /\ input_quantity None = 1%Z.
Proof.
  split; [reflexivity|].
  apply (first_product_starts_the_cart (page_with NoKey) (line "A" 10 0)
           (Some "4"%string)).
  - left. reflexivity.
  - vm_compute. discriminate.
Defined.

Lemma quantity_sum_natural (items : list CartLineItem) :
  Forall (fun item => natural_or_not_a_number (Quantity item)) items ->
  exists m : Z, (0 <= m)%Z /\ quantity_sum items = Z2Qc m.
Proof.
  unfold quantity_sum. induction 1 as [|item items Hitem _ IH]; simpl.
  - exists 0%Z. split; [lia | reflexivity].
  - destruct IH as [m [Hm ->]].
    destruct (counted_natural item Hitem) as [c [Hc ->]].
    exists (c + m)%Z. split; [lia | apply Z2Qc_add].
Qed.

Lemma quantity_sum_snoc (items : list CartLineItem) (x : CartLineItem) :
  quantity_sum (items ++ [x])%list = quantity_sum items + counted x.
Proof.
  unfold quantity_sum. induction items as [|item items IH]; simpl.
  - now rewrite Qcplus_0_l, Qcplus_0_r.
  - now rewrite IH, Qcplus_assoc.
Qed.

Lemma quantity_sum_increase (id : string) (n : Z) (items : list CartLineItem)
                            (found : CartLineItem) :
  Forall (fun item => natural_or_not_a_number (Quantity item)) items ->
  (1 <= n)%Z ->
  find (fun item => (Id item =? id)%string) items = Some found ->
  quantity_sum (increase_Quantity id (Z2Qc n) items) = quantity_sum items + Z2Qc n.
Proof.
  intros Hq Hn. revert found. unfold quantity_sum.
  induction Hq as [|item items Hitem Htl IH]; simpl; intros found Hfind;
    [discriminate|].
  destruct (Id item =? id)%string; simpl.
  - fold (counted item).
    rewrite counted_with_Quantity by now apply natural_sum_nonzero.
    rewrite <- !Qcplus_assoc. f_equal. apply Qcplus_comm.
  - rewrite (IH _ Hfind). now rewrite Qcplus_assoc.
Qed.

Lemma quantity_sum_added (product : CartLineItem) (quantityInput : option string)
                         (items : list CartLineItem) :
  Forall (fun item => natural_or_not_a_number (Quantity item)) items ->
  quantity_sum (added product quantityInput items)
  = quantity_sum items + Z2Qc (input_quantity quantityInput).
Proof.
  intros Hq. unfold added. destruct (find _ items) as [found|] eqn:E.
  - now apply quantity_sum_increase with (found := found);
      [| apply input_quantity_positive |].
  - rewrite quantity_sum_snoc, counted_with_Quantity; [reflexivity|].
    intros H. apply Z2Qc_inj in H.
    pose proof (input_quantity_positive quantityInput). lia.
Qed.

(** X17: after addProductToCart the count badge, when the header is in the
    page, is shown and counts the quantity added: when no stored quantity
    is negative or fractional, and the stored quantities and the input sum
    to at most 2^53, the count is the sum of the counted quantities of the
    cart before plus the quantity read from the input. *)
Theorem badge_counts_the_added_quantity
    (p : page) (items : list CartLineItem)
    (product : CartLineItem) (quantityInput : option string) :
  storage p = Text (PArray items) ->
  has_badge p = true ->
  Forall (fun item => natural_or_not_a_number (Quantity item)) items ->
  exact_cart items ->
  (quantity_load items + input_quantity quantityInput <= safe_bound)%Z ->
  exists p',
    addProductToCart product quantityInput p = Return tt p'
    /\ badge_hide p' = false
    /\ cart_count p' = quantity_sum items + Z2Qc (input_quantity quantityInput).
Proof.
  intros Hs Hb Hq _ _. eexists.
  split; [rewrite addProductToCart_run, Hs; reflexivity|].
  assert (Hsum : totalQty (added product quantityInput items)
                 = quantity_sum items + Z2Qc (input_quantity quantityInput)).
  { unfold totalQty. rewrite totalQty_sum, Qcplus_0_l.
    now apply quantity_sum_added. }
  assert (Hnz : is_zero (totalQty (added product quantityInput items)) = false).
  { rewrite Hsum. destruct (quantity_sum_natural items Hq) as [m [Hm ->]].
    rewrite Z2Qc_add, is_zero_Z2Qc.
    pose proof (input_quantity_positive quantityInput).
    apply Z.eqb_neq. lia. }
  unfold badged. simpl has_badge. rewrite Hb. simpl.
  now rewrite Hnz, Hsum.
Qed.

Lemma badge_counts_the_added_quantity_witness :
  let items := [line "A" 10 2; line "B" 5 1] in
  (quantity_sum items + Z2Qc (input_quantity (Some "4"%string)) = Z2Qc 7)
  /\ exists p',
       addProductToCart (line "C" 7 0) (Some "4"%string)
         (page_with (Text (PArray items))) = Return tt p'
       /\ badge_hide p' = false
       /\ cart_count p'
          = quantity_sum items + Z2Qc (input_quantity (Some "4"%string)).
Proof.
  split; [reflexivity|].
  apply (badge_counts_the_added_quantity
           (page_with (Text (PArray [line "A" 10 2; line "B" 5 1])))
           [line "A" 10 2; line "B" 5 1] (line "C" 7 0) (Some "4"%string)
           eq_refl eq_refl).
  - apply Forall_cons; [right; exists 2%Z; split; [lia | reflexivity]|].
    apply Forall_cons; [right; exists 1%Z; split; [lia | reflexivity]|].
    apply Forall_nil.
  - exact_range.
  - vm_compute. discriminate.
Defined.

(** X18: the plain addProductToCart appends the product as it is, so adding
    a product already in the cart stores two lines with one id; the
    normalizer merges them: when the quantities of the cart and of the
    product are whole numbers the sum of whose magnitudes is at most 2^53,
    every line of the normalized cart has the quantity of the cart before,
    with the product's counted quantity (1 when it has none) added under
    the product's id. *)
Theorem plain_add_is_merged_by_the_normalizer
    (p : page) (items : list CartLineItem) (product : CartLineItem) :
  storage p = Text (PArray items) ->
  exact_cart (items ++ [product])%list ->
  exists p',
    PlainProductDetails.addProductToCart product p = Return tt p'
    /\ storage p' = Text (PArray (items ++ [product])%list)
    /\ (In (Id product) (map Id items) ->
        ~ NoDup (map Id (items ++ [product])%list))
    /\ NoDup (map Id (combineDuplicateItems (items ++ [product])%list))
    /\ (forall item, In item (combineDuplicateItems (items ++ [product])%list) ->
          Quantity item
          = JNum (group_quantity (Id item) items
                  + (if (Id product =? Id item)%string
                     then counted product else Z2Qc 0))).
Proof.
  intros Hs _. eexists.
  split; [rewrite plain_addProductToCart_run, Hs; reflexivity|].
  split; [reflexivity|]. split; [|split].
  - intros Hin Hnd. rewrite map_app in Hnd. simpl in Hnd.
    apply NoDup_remove_2 in Hnd. apply Hnd. now rewrite app_nil_r.
  - apply combine_NoDup.
  - intros item Hin. rewrite (combine_Quantity _ item Hin).
    now rewrite group_quantity_snoc.
Qed.

Lemma plain_add_is_merged_witness :
  let items := [line "A" 10 2; line "B" 5 1] in
  exists p',
    PlainProductDetails.addProductToCart (line "A" 10 1)
      (page_with (Text (PArray items))) = Return tt p'
    /\ storage p' = Text (PArray (items ++ [line "A" 10 1])%list)
    /\ (In (Id (line "A" 10 1)) (map Id items) ->
        ~ NoDup (map Id (items ++ [line "A" 10 1])%list))
    /\ NoDup (map Id (combineDuplicateItems (items ++ [line "A" 10 1])%list))
    /\ (forall item, In item (combineDuplicateItems (items ++ [line "A" 10 1])%list) ->
          Quantity item
          = JNum (group_quantity (Id item) items
                  + (if (Id (line "A" 10 1) =? Id item)%string
                     then counted (line "A" 10 1) else Z2Qc 0))).
Proof.
  apply (plain_add_is_merged_by_the_normalizer
           (page_with (Text (PArray [line "A" 10 2; line "B" 5 1])))
           [line "A" 10 2; line "B" 5 1] (line "A" 10 1) eq_refl).
  simpl app. exact_range.
Defined.

End AddQuantities.

(** ** The count badge at the edges and after an update *)

Section BadgeProperties.

Local Open Scope Qc_scope.

(** X19: countCartItems reads the stored cart before it looks for the
    badge.  Without the header in the page it changes nothing, whatever
    value is stored, but still throws a [SyntaxError] on content that does
    not parse; with the header, a stored value that is truthy and not an
    array makes it throw a [TypeError], and the page is left as it was. *)
Theorem count_badge_without_header_or_cart (p : page) :
  (has_badge p = false ->
   countCartItems p
   = match storage p with
     | Unparseable => Throw SyntaxError p
     | _ => Return tt p
     end)
  /\ (has_badge p = true ->
      forall e, stored_cart (storage p) = inl e -> countCartItems p = Throw e p).
Proof.
  unfold countCartItems, bind, getLocalStorage. split.
  - intros Hb. destruct (storage p) as [| |v]; rewrite ?Hb; reflexivity.
  - intros Hb e. unfold stored_cart, or_empty.
    destruct (storage p) as [| |v]; try discriminate.
    + intros H. injection H as <-. reflexivity.
    + rewrite Hb. destruct v as [|[]|q|s| |items]; simpl; try discriminate;
        try (intros H; injection H as <-; reflexivity).
      * destruct (is_zero q); simpl; [discriminate|].
        intros H. injection H as <-. reflexivity.
      * destruct (s =? "")%string; simpl; [discriminate|].
        intros H. injection H as <-. reflexivity.
Qed.

Lemma count_badge_without_header_witness :
  let p := {| storage := Text PObject; writes := []; product_list := [];
              cart_total := Fin (Z2Qc 0); cart_footer_hide := false;
              has_badge := false; badge_hide := true; cart_count := Z2Qc 0 |} in
  has_badge p = false /\ countCartItems p = Return tt p.
Proof.
  split; [reflexivity|].
  exact (proj1 (count_badge_without_header_or_cart
                  {| storage := Text PObject; writes := []; product_list := [];
                     cart_total := Fin (Z2Qc 0); cart_footer_hide := false;
                     has_badge := false; badge_hide := true; cart_count := Z2Qc 0 |})
               eq_refl).
Defined.

Lemma badged_count (items : list CartLineItem) (p : page) :
  has_badge p = true ->
  (badge_hide (badged items p) = true <-> quantity_sum items = Z2Qc 0)
  /\ (quantity_sum items <> Z2Qc 0 -> cart_count (badged items p) = quantity_sum items).
Proof.
  intros Hb. unfold badged. rewrite Hb. simpl.
  assert (E : totalQty items = quantity_sum items).
  { unfold totalQty, quantity_sum. rewrite totalQty_sum. apply Qcplus_0_l. }
  rewrite E. split; [apply is_zero_spec|].
  intros Hnz. destruct (is_zero (quantity_sum items)) eqn:Z; [|reflexivity].
  now apply is_zero_spec in Z.
Qed.

Lemma refreshed_badge (data : list CartLineItem) (p : page) :
  has_badge p = true ->
  (badge_hide (refreshed data p) = true
   <-> quantity_sum (combineDuplicateItems data) = Z2Qc 0)
  /\ (quantity_sum (combineDuplicateItems data) <> Z2Qc 0 ->
      cart_count (refreshed data p) = quantity_sum (combineDuplicateItems data)).
Proof. intros Hb. unfold refreshed. now apply badged_count. Qed.

(** X20: after remove(id) and after a set-quantity that found its line, the
    count badge, when the header is in the page, agrees with the persisted
    cart: it is hidden if and only if the counted quantities of the
    persisted cart sum to zero, and shows that sum otherwise.  The stored
    quantities, and with them the input of set-quantity, are whole numbers
    the sum of whose magnitudes is at most 2^53. *)
Theorem badge_follows_the_persisted_cart
    (p : page) (items : list CartLineItem) (id rawValue : string) :
  storage p = Text (PArray items) ->
  has_badge p = true ->
  exact_cart items ->
  (exists p' cart,
      remove id p = Return tt p'
      /\ storage p' = Text (PArray cart)
      /\ cart = removed id items
      /\ (badge_hide p' = true <-> quantity_sum cart = Z2Qc 0)
      /\ (quantity_sum cart <> Z2Qc 0 -> cart_count p' = quantity_sum cart))
  /\ (In id (map Id items) ->
      (quantity_load items + clamped_quantity rawValue <= safe_bound)%Z ->
      exists p' cart,
        set_quantity id rawValue p = Return tt p'
        /\ storage p' = Text (PArray cart)
        /\ (badge_hide p' = true <-> quantity_sum cart = Z2Qc 0)
        /\ (quantity_sum cart <> Z2Qc 0 -> cart_count p' = quantity_sum cart)).
Proof.
  intros Hs Hb _. split.
  - destruct (remove_run_array p items id Hs) as (Hrun & Hst & _).
    assert (Hnd : NoDup (map Id (without id (combineDuplicateItems items))))
      by apply without_Ids_NoDup, combine_NoDup.
    eexists. exists (removed id items). split; [exact Hrun|].
    split; [exact Hst|]. split; [reflexivity|].
    unfold removed. rewrite <- (proj1 (combine_refreshed_data _ Hnd)).
    now apply refreshed_badge.
  - intros Hid _.
    assert (Hid' : In id (map Id (combineDuplicateItems items)))
      by now apply combine_Ids.
    destruct (find_known_id id _ Hid') as [found Hfound].
    eexists. eexists. split.
    + rewrite set_quantity_run, Hs. simpl stored_cart. cbv beta iota.
      rewrite Hfound. reflexivity.
    + split; [now destruct (refreshed_page
                              (assign_Quantity id
                                 (Math_max (Z2Qc 1) (or_one (parseInt rawValue)))
                                 (combineDuplicateItems items)) p) as (-> & _)|].
      now apply refreshed_badge.
Qed.

Lemma badge_follows_the_persisted_cart_witness :
  let items := [line "A" 10 2; line "A" 10 3; line "B" 5 1] in
  let p := page_with (Text (PArray items)) in
  (exists p' cart,
     remove "B" p = Return tt p'
     /\ storage p' = Text (PArray cart)
     /\ cart = removed "B" items
     /\ (badge_hide p' = true <-> quantity_sum cart = Z2Qc 0)
     /\ (quantity_sum cart <> Z2Qc 0 -> cart_count p' = quantity_sum cart))
  /\ (exists p' cart,
        set_quantity "B" "4" p = Return tt p'
        /\ storage p' = Text (PArray cart)
        /\ (badge_hide p' = true <-> quantity_sum cart = Z2Qc 0)
        /\ (quantity_sum cart <> Z2Qc 0 -> cart_count p' = quantity_sum cart))
  /\ quantity_sum (removed "B" items) = Z2Qc 5.
Proof.
  assert (Hx : exact_cart [line "A" 10 2; line "A" 10 3; line "B" 5 1])
    by exact_range.
  destruct (badge_follows_the_persisted_cart
              (page_with (Text (PArray [line "A" 10 2; line "A" 10 3; line "B" 5 1])))
              [line "A" 10 2; line "A" 10 3; line "B" 5 1] "B" "4"
              eq_refl eq_refl Hx) as [Hremove Hset].
  split; [exact Hremove|]. split; [|reflexivity].
  apply Hset; [right; right; left; reflexivity | vm_compute; discriminate].
Defined.

End BadgeProperties.
